(** * IPC-2581 parser of InteractiveHtmlBom: a shallow embedding

    The Python module [InteractiveHtmlBom/ecad/ipc2581.py] reads an IPC-2581
    XML document with [xml.dom.minidom] and rebuilds board geometry from it.
    This file embeds the methods of [IPC2581Parser] as Rocq functions and
    states what they compute.

    Conventions of the embedding:
    - Python [float] is IEEE-754 binary64, here Rocq's primitive [float];
    - Python [str] is [string]; [==] on strings is [String.eqb];
    - a Python exception is a value [Err e] of the error monad [result];
    - a [dict] with string keys is a [gmap string _];
    - functions that are not part of the module (libm's [atan], the builtin
      [float], [os.path.abspath], [minidom.parse]) are variables of the
      section [Host]. *)

From Stdlib Require Import Floats.Floats.
From Stdlib Require Import Strings.String Strings.Ascii.
From Stdlib Require Import Lists.List.
From stdpp Require Import base option list gmap strings.

Import ListNotations.
Set Warnings "-register-all".
Local Open Scope string_scope.
Local Open Scope list_scope.

(** ** Exceptions and the error monad *)

(** The exceptions the parser can raise; [OtherError] stands for whatever
    else a host function raises (a file that cannot be opened, say). *)
Inductive exn : Type :=
| AttributeError (obj attr : string)
| UnboundLocalError (var : string)
| KeyError (key : string)
| IndexError
| ValueError (what : string)
| TypeError (what : string)
| OverflowError
| ZeroDivisionError
| ExpatError (message : string)
| OtherError (what : string).

Inductive result (A : Type) : Type :=
| Ok (a : A)
| Err (e : exn).

Arguments Ok {A} a.
Arguments Err {A} e.

Definition bind {A B : Type} (r : result A) (k : A -> result B) : result B :=
  match r with
  | Ok a => k a
  | Err e => Err e
  end.

Declare Scope py_scope.
Delimit Scope py_scope with py.
Notation "'do' x <- e ; k" := (bind e (fun x => k))
  (at level 10, x pattern, e at level 100, k at level 200) : py_scope.
Local Open Scope py_scope.

Definition is_ok {A : Type} (r : result A) : bool :=
  match r with
  | Ok _ => true
  | Err _ => false
  end.

(** A local variable that an assignment may or may not have bound; reading
    it while unbound raises [UnboundLocalError]. *)
Definition read_local {A : Type} (name : string) (v : option A) : result A :=
  match v with
  | Some a => Ok a
  | None => Err (UnboundLocalError name)
  end.

(** [xs[0]] on a list. *)
Definition first_item {A : Type} (xs : list A) : result A :=
  match xs with
  | x :: _ => Ok x
  | [] => Err IndexError
  end.

(** A [for] loop whose body may raise: the state is threaded through the
    items in order and the first exception ends the loop. *)
Fixpoint for_each {A S : Type} (xs : list A) (body : A -> S -> result S)
    (s : S) : result S :=
  match xs with
  | [] => Ok s
  | x :: xs' => do s' <- body x s; for_each xs' body s'
  end.

(** ** Float operations of Python *)

Module PyFloat.

Local Open Scope float_scope.

(** [math.pi] *)
Definition pi : float := 0x1.921fb54442d18p+1.

(** [x / y]: division by a zero raises. *)
Definition truediv (x y : float) : result float :=
  if y =? 0 then Err ZeroDivisionError else Ok (x / y).

(** [x ** 2] ([float_pow] with exponent 2.0): NaN and infinities pass
    through, a finite base whose square is out of range raises
    [OverflowError].  libm's [pow (x, 2.0)] is taken to be the rounded
    product, from which it can differ in the last place; the statements
    below hold for either, being relative to this operation. *)
Definition pow2 (x : float) : result float :=
  let r := x * x in
  if is_nan x || is_infinity x then Ok r
  else if is_infinity r then Err OverflowError
  else Ok r.

(** [math.sqrt x]: a NaN result from a non-NaN argument raises. *)
Definition math_sqrt (x : float) : result float :=
  let r := sqrt x in
  if is_nan r && negb (is_nan x) then Err (ValueError "math domain error")
  else Ok r.

(** [x > y] *)
Definition gt (x y : float) : bool := y <? x.

End PyFloat.

(** ** The document tree of [xml.dom.minidom] *)

Module Dom.

(** An element carries its tag, its attributes and its children; every
    other kind of node (text, comment, processing instruction, doctype)
    is kept with its [nodeType] only. *)
Inductive node : Type :=
| Element (tagName : string) (attributes : list (string * string))
          (childNodes : list node)
| NonElement (nodeType : nat).

(** What [minidom.parse] returns: the children of the document node. *)
Record document : Type := Document { doc_childNodes : list node }.

Definition ELEMENT_NODE : nat := 1.

Definition nodeType (n : node) : nat :=
  match n with
  | Element _ _ _ => ELEMENT_NODE
  | NonElement t => t
  end.

Definition childNodes (n : node) : list node :=
  match n with
  | Element _ _ ch => ch
  | NonElement _ => []
  end.

(** [n.tagName]: only elements have the attribute.  Python's message names
    the class of the node ([Comment], [DocumentType], ...); the exception
    here carries the one label [Node]. *)
Definition tagName (n : node) : result string :=
  match n with
  | Element t _ _ => Ok t
  | NonElement _ => Err (AttributeError "Node" "tagName")
  end.

Fixpoint assoc (key : string) (kvs : list (string * string)) : option string :=
  match kvs with
  | [] => None
  | (k, v) :: rest => if String.eqb k key then Some v else assoc key rest
  end.

(** [n.getAttribute(name)]: the empty string when the attribute is absent.
    The parser calls it on elements only. *)
Definition getAttribute (n : node) (name : string) : string :=
  match n with
  | Element _ attrs _ => default "" (assoc name attrs)
  | NonElement _ => ""
  end.

Definition tag_matches (name tag : string) : bool :=
  String.eqb name "*" || String.eqb tag name.

(** minidom's helper: the elements of a subtree whose tag matches, in
    document order, the root of the subtree first. *)
Fixpoint matching_in_subtree (name : string) (n : node) : list node :=
  match n with
  | Element t _ ch =>
      (if tag_matches name t then [n] else [])
        ++ flat_map (matching_in_subtree name) ch
  | NonElement _ => []
  end.

(** [n.getElementsByTagName(name)]: the matching descendants of [n]. *)
Definition getElementsByTagName (n : node) (name : string) : list node :=
  flat_map (matching_in_subtree name) (childNodes n).

(** [doc.getElementsByTagName(name)] *)
Definition doc_getElementsByTagName (d : document) (name : string) : list node :=
  flat_map (matching_in_subtree name) (doc_childNodes d).

(** [doc.firstChild] *)
Definition firstChild (d : document) : option node := head (doc_childNodes d).

End Dom.

Import Dom.

(** ** Values of the output

    What the parser stores in its dictionaries: strings, floats, [None] and
    lists.  A drawing is a [dict] with string keys. *)

Inductive value : Type :=
| VNone
| VStr (s : string)
| VFloat (f : float)
| VList (items : list value).

Abbreviation drawing := (gmap string value).

(** A reader of unsigned decimal integers, standing for the builtin [float]
    in the examples: on a string of digits it is the integer as a float
    (exact below [2^53]), on anything else [ValueError]. *)
Module SampleHost.

Local Open Scope float_scope.

Definition digit (c : ascii) : option float :=
  let code := nat_of_ascii c in
  if (48 <=? code)%nat && (code <=? 57)%nat
  then Some (Nat.iter (code - 48) (fun f => f + 1) 0)
  else None.

Fixpoint digits (acc : float) (s : string) : option float :=
  match s with
  | EmptyString => Some acc
  | String c rest =>
      match digit c with
      | Some d => digits (acc * 10 + d) rest
      | None => None
      end
  end.

Definition float_of_digits (s : string) : result float :=
  match s with
  | EmptyString => Err (ValueError "could not convert string to float")
  | _ =>
      match digits 0 s with
      | Some f => Ok f
      | None => Err (ValueError "could not convert string to float")
      end
  end.

End SampleHost.

(** ** Sample inputs *)

Module Samples.

(** A poly-step child with its [x] and [y] attributes. *)
Definition step (tag x y : string) : node :=
  Element tag [("x", x); ("y", y)] [].

(** The unit square: begin at (0,0), then lines to (1,0), (1,1), (0,1) and
    back to (0,0). *)
Definition square_path : node :=
  Element "Polygon" []
    [ step "PolyBegin" "0" "0";
      step "PolyStepSegment" "1" "0";
      step "PolyStepSegment" "1" "1";
      step "PolyStepSegment" "0" "1";
      step "PolyStepSegment" "0" "0" ].

(** A document whose header declares inches. *)
Definition inch_document : document :=
  Document
    [ Element "IPC-2581" [("revision", "C")]
        [ Element "Content" []
            [ Element "CadHeader" [("units", "INCH")] [] ] ] ].

(** A document whose first child is not an IPC-2581 element. *)
Definition foreign_document : document :=
  Document [ Element "svg" [] [] ].

(** A document of revision D. *)
Definition revision_D_document : document :=
  Document [ Element "IPC-2581" [("revision", "D")] [] ].

(** One silkscreen polyline whose line style [L9] is not in the table. *)
Definition dangling_polyline : node :=
  Element "Polyline" []
    [ step "PolyBegin" "0" "0";
      step "PolyStepSegment" "1" "0";
      Element "LineDescRef" [("id", "L9")] [] ].

Definition dangling_feature : node :=
  Element "LayerFeature" [("layerRef", "SILK_TOP")]
    [ Element "Set" [] [ Element "Features" [] [ dangling_polyline ] ] ].

Definition dangling_document : document :=
  Document [ Element "IPC-2581" [("revision", "C")] [ dangling_feature ] ].

Definition one_line_style : gmap string string := {[ "L1" := "0.1" ]}.

(** One layer declaration: top copper, named L1. *)
Definition layer_L1 : node :=
  Element "Layer"
    [("name", "L1"); ("layerFunction", "CONDUCTOR"); ("side", "TOP")] [].

Definition one_layer_document : document :=
  Document [ Element "IPC-2581" [("revision", "C")]
               [ Element "Content" [] [ layer_L1 ] ] ].

(** A drill layer, which the resolver does not consume. *)
Definition layer_drill : node :=
  Element "Layer"
    [("name", "DRILL_1-2"); ("layerFunction", "DRILL"); ("side", "ALL")] [].

(** A placed component with a part number and a vendor VALUE. *)
Definition component_R1 : node :=
  Element "Component"
    [("refDes", "R1"); ("part", "R1-PN"); ("packageRef", "R0603");
     ("layerRef", "TOP")]
    [ Element "NonstandardAttribute"
        [("name", "VALUE"); ("value", "10k"); ("type", "STRING")] [] ].

(** [os.path.abspath] of a process whose working directory is [/work]:
    an absolute path is kept, a relative one is joined to the directory
    (no normalisation of dots or doubled slashes). *)
Definition abspath_in_work (path : string) : string :=
  match path with
  | String "/"%char _ => path
  | _ => "/work/" ++ path
  end.

End Samples.

Module MoreSamples.

(** A polyline of the top silkscreen with a known style and no step. *)
Definition empty_polyline : node :=
  Element "Polyline" [] [ Element "LineDescRef" [("id", "L1")] [] ].

(** A polyline with no style reference. *)
Definition unstyled_polyline : node :=
  Element "Polyline" [] [ Samples.step "PolyBegin" "0" "0" ].

Definition unstyled_feature : node :=
  Element "LayerFeature" [("layerRef", "SILK_TOP")] [ unstyled_polyline ].

Definition unstyled_document : document :=
  Document [ Element "IPC-2581" [("revision", "C")] [ unstyled_feature ] ].

(** A path with a segment that has no [x] attribute. *)
Definition broken_segment : node :=
  Element "PolyStepSegment" [("y", "1")] [].

Definition broken_path : node :=
  Element "Polygon" []
    [ Samples.step "PolyBegin" "0" "0";
      Samples.step "PolyStepSegment" "1" "0";
      broken_segment ].

(** A document that starts with a comment (node type 8). *)
Definition commented_document : document :=
  Document [ NonElement 8; Element "IPC-2581" [("revision", "C")] [] ].

(** An IPC-2581 document with no [revision] attribute. *)
Definition unrevised_document : document :=
  Document [ Element "IPC-2581" [] [] ].

(** Two line styles, the second without a [LineDesc]. *)
Definition styled_entry : node :=
  Element "EntryLineDesc" [("id", "L1")]
    [ Element "LineDesc" [("lineEnd", "ROUND"); ("lineWidth", "0.1")] [] ].

Definition bare_entry : node :=
  Element "EntryLineDesc" [("id", "L2")] [].

Definition styled_document : document :=
  Document [ Element "IPC-2581" [("revision", "C")]
               [ Element "Content" []
                   [ Element "DictionaryLineDesc" [] [ styled_entry ] ] ] ].

(** A silkscreen polyline with a known style: one segment. *)
Definition styled_polyline : node :=
  Element "Polyline" []
    [ Element "LineDescRef" [("id", "L1")] [];
      Samples.step "PolyBegin" "0" "0";
      Samples.step "PolyStepSegment" "1" "0" ].

Definition silkscreen_document : document :=
  Document
    [ Element "IPC-2581" [("revision", "C")]
        [ Element "LayerFeature" [("layerRef", "SILK_TOP")]
            [ styled_polyline ] ] ].

(** A document of revision D that starts with a comment. *)
Definition commented_revision_D_document : document :=
  Document [ NonElement 8; Element "IPC-2581" [("revision", "D")] [] ].

End MoreSamples.

Section Host.

(** libm's arc tangent, [math.atan]. *)
Variable math_atan : float -> float.

(** ** [convert_PolyStepCurve] *)

Section Curve.

Import PyFloat.
Local Open Scope float_scope.

(** A spoke is off the axes when neither of its components compares equal
    to zero. *)
Definition off_axis (dx dy : float) : bool :=
  negb ((dx =? 0) || (dy =? 0)).

(** The radius of one spoke in the specification's words: the absolute
    value of the nonzero component when the spoke lies on an axis, the
    hypotenuse otherwise. *)
Definition spoke_radius (dx dy : float) : result float :=
  if dx =? 0 then Ok (abs dy)
  else if dy =? 0 then Ok (abs dx)
  else
    do sqX <- pow2 (abs dx);
    do sqY <- pow2 (abs dy);
    math_sqrt (sqX + sqY).

(** One spoke of the arc, as the source handles the start spoke: the radius,
    the local [angle1] and the local [startAngle], which only the general
    branch assigns.  On an axis [angle1] is one of the integers 0, 90, 180
    and 270, kept here as the float of the same value. *)
Definition start_spoke (dX1 dY1 : float)
  : result (float * float * option float) :=
  if (dX1 =? 0) || (dY1 =? 0) then
    if dX1 =? 0 then
      let radius := abs dY1 in
      let angle1 := if gt dY1 0 then 270 else 90 in
      Ok (radius, angle1, None)
    else
      let radius := abs dX1 in
      let angle1 := if gt dX1 0 then 0 else 180 in
      Ok (radius, angle1, None)
  else
    do sqX <- pow2 (abs dX1);
    do sqY <- pow2 (abs dY1);
    do radius <- math_sqrt (sqX + sqY);
    do q <- truediv (abs dX1) (abs dY1);
    do k <- truediv 180 pi;
    let angle1 := math_atan q * k in
    let startAngle :=
      if gt dX1 0 && gt dY1 0 then 270 + angle1
      else if (dX1 <? 0) && gt dY1 0 then 270 - angle1
      else if (dX1 <? 0) && (dY1 <? 0) then 90 + angle1
      else 90 - angle1 in
    Ok (radius, angle1, Some startAngle).

(** The end spoke: the axis-aligned branch overwrites [radius], the general
    branch leaves it as the start spoke computed it. *)
Definition end_spoke (radius dX2 dY2 : float)
  : result (float * float * option float) :=
  if (dX2 =? 0) || (dY2 =? 0) then
    if dX2 =? 0 then
      let radius := abs dY2 in
      let angle2 := if gt dY2 0 then 270 else 90 in
      Ok (radius, angle2, None)
    else
      let radius := abs dX2 in
      let angle2 := if gt dX2 0 then 0 else 180 in
      Ok (radius, angle2, None)
  else
    do q <- truediv (abs dX2) (abs dY2);
    do k <- truediv 180 pi;
    let angle2 := math_atan q * k in
    let endAngle :=
      if gt dX2 0 && gt dY2 0 then 270 + angle2
      else if (dX2 <? 0) && gt dY2 0 then 270 - angle2
      else if (dX2 <? 0) && (dY2 <? 0) then 90 + angle2
      else 90 - angle2 in
    Ok (radius, angle2, Some endAngle).

Definition convert_PolyStepCurve
    (startX startY ctrX ctrY endX endY : float) (cw : string)
  : result (float * float * float) :=
  let dX1 := ctrX - startX in
  let dY1 := ctrY - startY in
  let dX2 := ctrX - endX in
  let dY2 := ctrY - endY in
  do (radius, _, startAngle) <- start_spoke dX1 dY1;
  do (radius, _, endAngle) <- end_spoke radius dX2 dY2;
  if String.eqb cw "true" then
    do s <- read_local "startAngle" startAngle;
    do e <- read_local "endAngle" endAngle;
    Ok (radius, s, e)
  else
    do e <- read_local "endAngle" endAngle;
    do s <- read_local "startAngle" startAngle;
    Ok (radius, e, s).

End Curve.

(** ** [process_PolyStep] *)

(** The builtin [float] applied to a string: the parsed number, or
    [ValueError]. *)
Variable py_float : string -> result float.

(** The locals that the loop carries from one child to the next: the running
    point and the list [e] of drawings emitted so far. *)
Record poly_state : Type := PolyState {
  NewX : float;
  NewY : float;
  e : list drawing
}.

(** The loop starts at [NewX = NewY = 0] (the integer 0, the same number as
    the float) with no drawing. *)
Definition poly_init : poly_state := PolyState 0 0 [].

Definition segment_dict (LastX LastY NewX NewY : float) (width : value) : drawing :=
  list_to_map
    [ ("type", VStr "segment");
      ("start", VList [VFloat LastX; VFloat LastY]);
      ("end", VList [VFloat NewX; VFloat NewY]);
      ("wdith", width) ].

Definition arc_dict (width : value) (CtrX CtrY : float) (arc : float * float * float)
  : drawing :=
  let '(arc0, arc1, arc2) := arc in
  list_to_map
    [ ("type", VStr "arc");
      ("width", width);
      ("start", VList [VFloat CtrX; VFloat CtrY]);
      ("radius", VFloat arc0);
      ("startangle", VFloat arc1);
      ("endangle", VFloat arc2) ].

(** The body of the loop over [n.childNodes]. *)
Definition poly_step (width : value) (p : node) (st : poly_state)
  : result poly_state :=
  if Nat.eqb (nodeType p) ELEMENT_NODE then
    let LastX := NewX st in
    let LastY := NewY st in
    do pname <- tagName p;
    if String.eqb pname "PolyBegin" then
      do newX <- py_float (getAttribute p "x");
      do newY <- py_float (getAttribute p "y");
      Ok (PolyState newX newY (e st))
    else if String.eqb pname "PolyStepSegment" then
      do newX <- py_float (getAttribute p "x");
      do newY <- py_float (getAttribute p "y");
      Ok (PolyState newX newY
            (e st ++ [segment_dict LastX LastY newX newY width]))
    else if String.eqb pname "PolyStepCurve" then
      do newX <- py_float (getAttribute p "x");
      do newY <- py_float (getAttribute p "y");
      do CtrX <- py_float (getAttribute p "centerX");
      do CtrY <- py_float (getAttribute p "centerY");
      do arc <- convert_PolyStepCurve LastX LastY CtrX CtrY newX newY
                  (getAttribute p "clockwise");
      Ok (PolyState newX newY (e st ++ [arc_dict width CtrX CtrY arc]))
    else Ok st
  else Ok st.

(** [process_PolyStep]; every caller passes [width], so its default 0.1 is
    left out. *)
Definition process_PolyStep (n : node) (width : value) : result (list drawing) :=
  do st <- for_each (childNodes n) (poly_step width) poly_init;
  Ok (e st).

(** ** The table builders and resolvers *)

(** [get_Line_Widths]: the [lineWidth] attribute (a string) of the first
    [LineDesc] under every [EntryLineDesc], keyed by the entry's [id]. *)
Definition get_Line_Widths (pcb : document) : result (gmap string string) :=
  for_each (doc_getElementsByTagName pcb "EntryLineDesc")
    (fun l (lines : gmap string string) =>
       do desc <- first_item (getElementsByTagName l "LineDesc");
       Ok (<[getAttribute l "id" := getAttribute desc "lineWidth"]> lines))
    ∅.

(** [get_Shapes]: the body of its [RectCenter] branch is missing in the
    source, so the function is a variable here; no statement below depends
    on what it returns. *)
Variable get_Shapes : document -> result (gmap string value).

(** [get_Footprints] is called by [_parse] and defined outside the module. *)
Variable get_Footprints :
  document -> gmap string string -> gmap string value -> result value.

Definition COMPATIBLE_IPC_REV : string := "C".

(** [s > t] on strings: lexicographic on the characters. *)
Definition str_gt (s t : string) : bool :=
  match String.compare s t with
  | Gt => true
  | _ => false
  end.

Inductive log_record : Type :=
| LogError (msg : string)
| LogInfo (msg : string).

(** [validate_IPC2581]: what it logs and what it returns. *)
Definition validate_IPC2581 (pcb : document) : list log_record * result bool :=
  match firstChild pcb with
  | None => ([], Err (AttributeError "NoneType" "tagName"))
  | Some root =>
      match tagName root with
      | Err ex => ([], Err ex)
      | Ok tag =>
          if negb (String.eqb tag "IPC-2581") then
            ([LogError "XML header does not specify IPC2581"], Ok false)
          else
            let IPC_rev := getAttribute root "revision" in
            if str_gt IPC_rev COMPATIBLE_IPC_REV then
              ([LogError "incompatible IPC2581 revision"], Ok false)
            else ([], Ok true)
      end
  end.

(** [get_Component_Val]: attribute [part], overwritten by every
    [NonstandardAttribute] named [VALUE] in document order. *)
Definition get_Component_Val (comp : node) : string :=
  fold_left
    (fun val e =>
       if String.eqb (getAttribute e "name") "VALUE"
       then getAttribute e "value" else val)
    (getElementsByTagName comp "NonstandardAttribute")
    (getAttribute comp "part").

Definition get_Metadata (pcb : document)
  : result (string * string * string * string) :=
  do step <- first_item (doc_getElementsByTagName pcb "StepRef");
  let t := getAttribute step "name" in
  Ok (t, "", "", "").

(** The six locals of [get_LayerNames]; [None] is Python's [None]. *)
Record layer_refs : Type := LayerRefs {
  TopCuRef : option string;
  BotCuRef : option string;
  TopSilkRef : option string;
  BotSilkRef : option string;
  TopAsmRef : option string;
  BotAsmRef : option string
}.

Definition layer_step (r : layer_refs) (Layers : node) : layer_refs :=
  let ls := getAttribute Layers "side" in
  let lf := getAttribute Layers "layerFunction" in
  let name := Some (getAttribute Layers "name") in
  let '(LayerRefs topCu botCu topSilk botSilk topAsm botAsm) := r in
  if String.eqb ls "TOP" then
    if String.eqb lf "DOCUMENT" then LayerRefs topCu botCu name botSilk topAsm botAsm
    else if String.eqb lf "CONDUCTOR" then LayerRefs name botCu topSilk botSilk topAsm botAsm
    else if String.eqb lf "ASSEMBLY" then LayerRefs topCu botCu topSilk botSilk name botAsm
    else r
  else if String.eqb ls "BOTTOM" then
    if String.eqb lf "DOCUMENT" then LayerRefs topCu botCu topSilk name topAsm botAsm
    else if String.eqb lf "CONDUCTOR" then LayerRefs topCu name topSilk botSilk topAsm botAsm
    else if String.eqb lf "ASSEMBLY" then LayerRefs topCu botCu topSilk botSilk topAsm name
    else r
  else r.

Definition no_layers : layer_refs := LayerRefs None None None None None None.

(** [get_LayerNames]: the tuple
    [(TopCuRef, BotCuRef, TopSilkRef, BotSilkRef, TopAsmRef, BotAsmRef)]. *)
Definition get_LayerNames (pcb : document) : layer_refs :=
  fold_left layer_step (doc_getElementsByTagName pcb "Layer") no_layers.

(** ** The outline and the layer drawings *)

(** The comparisons of [set_outlineWidth] on the value of [units]; falling
    off the end of the function returns [None]. *)
Definition outline_width_of_unit (unit : string) : value :=
  if String.eqb unit "INCH" then VFloat 0x1.47ae147ae147bp-8
  else if String.eqb unit "MILLIMETER" then VFloat 0x1.04189374bc6a8p-3
  else if String.eqb unit "MICRON" then VFloat 127
  else VNone.

(** [pcb.<name>] for a method that takes a tag name: minidom's [Document]
    has [getElementsByTagName]; looking another name up raises
    [AttributeError] before any call is made. *)
Definition doc_method (pcb : document) (name : string)
  : result (string -> list node) :=
  if String.eqb name "getElementsByTagName"
  then Ok (doc_getElementsByTagName pcb)
  else Err (AttributeError "Document" name).

(** [set_outlineWidth]: the source spells the method [getElementByTagName]. *)
Definition set_outlineWidth (pcb : document) : result value :=
  do method <- doc_method pcb "getElementByTagName";
  do header <- first_item (method "CadHeader");
  let unit := getAttribute header "units" in
  Ok (outline_width_of_unit unit).

Definition get_Board_Outline (pcb : document) : result (list drawing) :=
  do profile <- first_item (doc_getElementsByTagName pcb "Profile");
  let outline := [] in
  do outline_width <- set_outlineWidth pcb;
  do poly <- first_item (getElementsByTagName profile "Polygon");
  do ps <- process_PolyStep poly outline_width;
  let outline := outline ++ ps in
  for_each (getElementsByTagName profile "Cutout")
    (fun n outline =>
       do ps <- process_PolyStep n outline_width;
       Ok (outline ++ ps))
    outline.

(** The body of the loop over the polylines of one layer feature. *)
Definition polyline_step (lines : gmap string string) (poly : node)
    (drawings : list drawing) : result (list drawing) :=
  do ref <- first_item (getElementsByTagName poly "LineDescRef");
  let LineName := getAttribute ref "id" in
  do LineWidth <-
    match lines !! LineName with
    | Some w => Ok w
    | None => Err (KeyError LineName)
    end;
  do ps <- process_PolyStep poly (VStr LineWidth);
  Ok (drawings ++ ps).

(** The body of the loop over the [LayerFeature] elements. *)
Definition feature_step (layerName : string) (lines : gmap string string)
    (Layers : node) (drawings : list drawing) : result (list drawing) :=
  if String.eqb (getAttribute Layers "layerRef") layerName then
    for_each (getElementsByTagName Layers "Polyline") (polyline_step lines)
      drawings
  else Ok drawings.

(** [get_LayerDrawings]; the unused parameter [moreShapes] is left out. *)
Definition get_LayerDrawings (pcb : document) (layerName : option string)
    (lines : gmap string string) : result (list drawing) :=
  let drawings := [] in
  match layerName with
  | Some name =>
      for_each (doc_getElementsByTagName pcb "LayerFeature")
        (feature_step name lines) drawings
  | None => Ok drawings
  end.

(** ** [_parse] and [get_extra_field_data] *)

(** [minidom.parse] on a file name: the document, [ExpatError] when the
    file is not XML, or another exception (a file that cannot be read). *)
Variable minidom_parse : string -> result document.

(** [os.path.abspath] *)
Variable abspath : string -> string.

(** The fields of the parser object that the methods read. *)
Record parser : Type := Parser {
  file_name : string;
  include_tracks : bool
}.

(** [Component] of [ecad.common], with the constructor's arguments in
    order. *)
Record Component : Type := MkComponent {
  ref : string;
  val : string;
  footprint : string;
  layer : string;
  attr : string;
  extra_fields : gmap string string
}.

(** The dictionary [pcbdata]; a pair is the entry for ['F'] and the entry
    for ['B'].  The constant entries ["edges_bbox"], ["bom"] and
    ["font_data"] are empty dictionaries and ["zones"] holds two empty
    lists whenever ["tracks"] is present. *)
Record pcbdata : Type := PcbData {
  edges : list drawing;
  silkscreen : list drawing * list drawing;
  fabrication : list drawing * list drawing;
  footprints : value;
  metadata : string * string * string * string;
  tracks : option (list drawing * list drawing)
}.

(** The extra fields of one [Component] element: every
    [NonstandardAttribute] below it, later names overwriting earlier
    ones. *)
Definition component_extra_fields (c : node) : gmap string string :=
  let NSAttr := getElementsByTagName c "NonstandardAttribute" in
  match NSAttr with
  | [] => ∅
  | _ =>
      fold_left
        (fun (extra : gmap string string) n =>
           <[getAttribute n "name" := getAttribute n "value"]> extra)
        NSAttr ∅
  end.

(** The body of the loop over the [Component] elements. *)
Definition component_of (c : node) : Component :=
  let attr := "Normal" in
  let extra_fields := component_extra_fields c in
  MkComponent (getAttribute c "refDes")
              (get_Component_Val c)
              (getAttribute c "packageRef")
              (getAttribute c "layerRef")
              attr
              extra_fields.

Definition parse_components (pcb : document) : list Component :=
  map component_of (doc_getElementsByTagName pcb "Component").

(** [_parse] after the validation: the extraction proper. *)
Definition parse_validated (self : parser) (pcb : document)
  : result (pcbdata * list Component) :=
  do lines_Dict <- get_Line_Widths pcb;
  do shape_Dict <- get_Shapes pcb;
  let '(LayerRefs TopCu BotCu TopSilk BotSilk TopASM BotASM) := get_LayerNames pcb in
  do (title, revision, company, file_date) <- get_Metadata pcb;
  do edges <- get_Board_Outline pcb;
  do silkF <- get_LayerDrawings pcb TopSilk lines_Dict;
  do silkB <- get_LayerDrawings pcb BotSilk lines_Dict;
  do fabF <- get_LayerDrawings pcb TopASM lines_Dict;
  do fabB <- get_LayerDrawings pcb BotASM lines_Dict;
  do footprints <- get_Footprints pcb lines_Dict shape_Dict;
  do tracks <-
    (if include_tracks self then
       do trackF <- get_LayerDrawings pcb TopCu lines_Dict;
       do trackB <- get_LayerDrawings pcb BotCu lines_Dict;
       Ok (Some (trackF, trackB))
     else Ok None);
  let components := parse_components pcb in
  Ok (PcbData edges (silkF, silkB) (fabF, fabB) footprints
        (title, revision, company, file_date) tracks,
      components).

(** [_parse]: the log and the returned pair, [(None, None)] when there is
    no data. *)
Definition _parse (self : parser)
  : list log_record * result (option pcbdata * option (list Component)) :=
  match minidom_parse (file_name self) with
  | Err (ExpatError m) =>
      ([LogError ("File " ++ file_name self ++ " does is not contain XML. " ++ m)],
       Ok (None, None))
  | Err ex => ([], Err ex)
  | Ok pcb =>
      match validate_IPC2581 pcb with
      | (log, Err ex) => (log, Err ex)
      | (log, Ok false) => (log, Ok (None, None))
      | (log, Ok true) =>
          match parse_validated self pcb with
          | Err ex => (log, Err ex)
          | Ok (data, components) =>
              (log ++ [LogInfo ("Successfully parsed " ++ file_name self)],
               Ok (Some data, Some components))
          end
      end
  end.

(** The body of the loop of [get_extra_field_data] over the components:
    [ref_fields] is the entry of [comp_dict] for the component's reference,
    created empty when missing and updated in place. *)
Definition field_step (acc : gset string * gmap string (gmap string string))
    (c : Component) : gset string * gmap string (gmap string string) :=
  let '(field_set, comp_dict) := acc in
  let ref_fields := default ∅ (comp_dict !! ref c) in
  let '(field_set, ref_fields) :=
    map_fold
      (fun k v (st : gset string * gmap string string) =>
         ({[k]} ∪ st.1, <[k := v]> st.2))
      (field_set, ref_fields) (extra_fields c) in
  (field_set, <[ref c := ref_fields]> comp_dict).

(** [get_extra_field_data]: [Ok None] is the early [return None]; the list
    of the field names is the set's elements in the set's own order. *)
Definition get_extra_field_data (self : parser) (name : string)
  : list log_record
    * result (option (list string * gmap string (gmap string string))) :=
  if negb (String.eqb (abspath name) (abspath (file_name self))) then
    ([], Ok None)
  else
    let '(log, parsed) := _parse self in
    (log,
     do (_, components) <- parsed;
     match components with
     | None => Err (TypeError "'NoneType' object is not iterable")
     | Some cs =>
         let '(field_set, comp_dict) := fold_left field_step cs (∅, ∅) in
         Ok (Some (elements field_set, comp_dict))
     end).

(** ** [parse] *)

(** [BoundingBox] and [add_drawing_bounding_box] belong to [ecad.common]:
    the box, a fresh one, the fold of one drawing into a box, and the two
    methods [initialized] and [to_dict]. *)
Variable BoundingBox : Type.
Variable new_BoundingBox : BoundingBox.
Variable add_drawing_bounding_box : drawing -> BoundingBox -> result BoundingBox.
Variable bbox_initialized : BoundingBox -> bool.
Variable bbox_to_dict : BoundingBox -> gmap string value.

(** [parse]: the log and the returned pair; the entry ["edges_bbox"] that it
    overrides is returned beside the other entries of [pcbdata].  Reading
    [pcbdata['edges']] raises when [_parse] returned [None]. *)
Definition parse (self : parser)
  : list log_record
    * result (pcbdata * gmap string value * option (list Component)) :=
  let '(log, parsed) := _parse self in
  (log,
   do (data, components) <- parsed;
   match data with
   | None => Err (TypeError "'NoneType' object is not subscriptable")
   | Some data =>
       do board_outline_bbox <-
         for_each (edges data) add_drawing_bounding_box new_BoundingBox;
       let edges_bbox :=
         if bbox_initialized board_outline_bbox
         then bbox_to_dict board_outline_bbox else ∅ in
       Ok (data, edges_bbox, components)
   end).

(** ** Vocabulary of the statements *)

(** Consecutive drawings are chained when each one's [end] is the next
    one's [start]. *)
Fixpoint chained (ds : list drawing) : Prop :=
  match ds with
  | d1 :: ((d2 :: _) as rest) =>
      is_Some (d1 !! "end") /\ d1 !! "end" = d2 !! "start" /\ chained rest
  | _ => True
  end.

(** A layer declaration is consumed when its side is TOP or BOTTOM and its
    function is DOCUMENT, CONDUCTOR or ASSEMBLY: the six roles. *)
Definition consumed (l : node) : bool :=
  let ls := getAttribute l "side" in
  let lf := getAttribute l "layerFunction" in
  (String.eqb ls "TOP" || String.eqb ls "BOTTOM")
  && (String.eqb lf "DOCUMENT" || String.eqb lf "CONDUCTOR"
      || String.eqb lf "ASSEMBLY").

(** The value of the last attribute element named [k], in document order. *)
Definition last_named (k : string) (ns : list node) : option string :=
  last (map (fun n => getAttribute n "value")
          (List.filter (fun n => String.eqb (getAttribute n "name") k) ns)).

(** A child of a poly-step element emits a drawing when it is a
    [PolyStepSegment] or a [PolyStepCurve] element. *)
Definition emits (p : node) : bool :=
  match p with
  | Element t _ _ =>
      String.eqb t "PolyStepSegment" || String.eqb t "PolyStepCurve"
  | NonElement _ => false
  end.

(** A child that is neither a [PolyBegin] nor a [PolyStepCurve] element: a
    line segment, or a node that the loop passes over. *)
Definition segment_or_skipped (p : node) : bool :=
  match p with
  | Element t _ _ =>
      negb (String.eqb t "PolyBegin") && negb (String.eqb t "PolyStepCurve")
  | NonElement _ => true
  end.

(** A child whose coordinates the loop converts with [float]. *)
Definition reads_point (p : node) : bool :=
  match p with
  | Element t _ _ =>
      String.eqb t "PolyBegin" || String.eqb t "PolyStepSegment"
      || String.eqb t "PolyStepCurve"
  | NonElement _ => false
  end.

(** The keys of a drawing that [process_PolyStep] emits with stroke width
    [w]: a segment has the width under [wdith] and no [width], an arc has it
    under [width]. *)
Definition emitted_with (w : value) (d : drawing) : Prop :=
  (d !! "type" = Some (VStr "segment")
   /\ d !! "wdith" = Some w /\ d !! "width" = None)
  \/ (d !! "type" = Some (VStr "arc") /\ d !! "width" = Some w).

(** The width that an [EntryLineDesc] declares: the [lineWidth] of its first
    [LineDesc]. *)
Definition entry_width (l : node) : string :=
  match getElementsByTagName l "LineDesc" with
  | desc :: _ => getAttribute desc "lineWidth"
  | [] => ""
  end.

(** The width of the last entry whose [id] is [k], in document order. *)
Definition last_entry_width (k : string) (entries : list node) : option string :=
  last (map entry_width
          (List.filter (fun l => String.eqb (getAttribute l "id") k) entries)).

(** The name of the last layer declaration with the given side and
    function, in document order. *)
Definition last_layer (side function : string) (layers : list node)
  : option string :=
  last (map (fun l => getAttribute l "name")
          (List.filter
             (fun l => String.eqb (getAttribute l "side") side
                       && String.eqb (getAttribute l "layerFunction") function)
             layers)).

(** The results of [f] on the items, appended in order; the first exception
    ends it. *)
Fixpoint collect {A B : Type} (xs : list A) (f : A -> result (list B))
  : result (list B) :=
  match xs with
  | [] => Ok []
  | x :: xs' =>
      do ys <- f x;
      do rest <- collect xs' f;
      Ok (ys ++ rest)
  end.

(** The drawings of one polyline: the style reference, the width from the
    table, the reconstruction with that width. *)
Definition polyline_drawings (lines : gmap string string) (poly : node)
  : result (list drawing) :=
  do ref <- first_item (getElementsByTagName poly "LineDescRef");
  match lines !! getAttribute ref "id" with
  | Some w => process_PolyStep poly (VStr w)
  | None => Err (KeyError (getAttribute ref "id"))
  end.

(** The polylines of the layer features that refer to the layer [name], in
    document order. *)
Definition requested_polylines (pcb : document) (name : string) : list node :=
  flat_map
    (fun feature =>
       if String.eqb (getAttribute feature "layerRef") name
       then getElementsByTagName feature "Polyline" else [])
    (doc_getElementsByTagName pcb "LayerFeature").

(** The fields of the components of one reference designator, merged in
    order: a later component overrides an earlier one on a shared name. *)
Definition merged_fields (r : string) (cs : list Component)
  : option (gmap string string) :=
  fold_left
    (fun acc c =>
       if String.eqb (ref c) r
       then Some (extra_fields c ∪ default ∅ acc) else acc)
    cs None.

(** Two components of one designator: the second overrides the TOL of the
    first and adds a field. *)
Definition first_R1 : Component :=
  MkComponent "R1" "10k" "R0603" "TOP" "Normal"
    {[ "VALUE" := "10k"; "TOL" := "5%" ]}.

Definition second_R1 : Component :=
  MkComponent "R1" "10k" "R0603" "TOP" "Normal"
    {[ "TOL" := "1%"; "MFR" := "ACME" ]}.

(** The root element of a document ([documentElement]): its first child that
    is an element. *)
Definition documentElement (pcb : document) : option node :=
  head (List.filter
          (fun n => match n with
                    | Element _ _ _ => true
                    | NonElement _ => false
                    end)
          (doc_childNodes pcb)).

(** ** Statements about the curve conversion *)

Section CurveFacts.

Import PyFloat.
Local Open Scope float_scope.

Lemma abs_eqb_zero (y : float) : (abs y =? 0) = (y =? 0).
Proof.
  rewrite !FloatAxioms.eqb_spec, abs_spec.
  replace (Prim2SF 0) with (S754_zero false) by reflexivity.
  destruct (Prim2SF y) as [sg | sg | | sg m ex]; try reflexivity;
    destruct sg; reflexivity.
Qed.

Lemma off_axis_false (dx dy : float) :
  off_axis dx dy = true -> (dx =? 0) = false /\ (dy =? 0) = false.
Proof.
  unfold off_axis. destruct (dx =? 0), (dy =? 0); simpl; intros H;
    try discriminate; split; reflexivity.
Qed.

(** The quotient of the absolute values never divides by zero off the
    axes. *)
Lemma truediv_abs_off_axis (dx dy : float) :
  (dy =? 0) = false -> truediv (abs dx) (abs dy) = Ok (abs dx / abs dy).
Proof. intros H. unfold truediv. rewrite abs_eqb_zero, H. reflexivity. Qed.

(** On the start spoke the source computes the radius of the specification;
    [startAngle] is bound exactly off the axes. *)
Lemma start_spoke_axis_aligned (dx dy : float) :
  off_axis dx dy = false ->
  exists r a, start_spoke dx dy = Ok (r, a, None) /\ spoke_radius dx dy = Ok r.
Proof.
  unfold off_axis, start_spoke, spoke_radius.
  destruct (dx =? 0) eqn:Ex; simpl.
  - intros _. eauto.
  - destruct (dy =? 0); simpl; [ | discriminate ]. intros _. eauto.
Qed.

Lemma start_spoke_off_axis (dx dy r : float) :
  off_axis dx dy = true ->
  spoke_radius dx dy = Ok r ->
  exists a s, start_spoke dx dy = Ok (r, a, Some s).
Proof.
  intros Hoff Hr. destruct (off_axis_false _ _ Hoff) as [Hx Hy].
  unfold start_spoke, spoke_radius in *. rewrite Hx, Hy in *. simpl.
  destruct (pow2 (abs dx)) as [sqX | ]; simpl in *; [ | discriminate ].
  destruct (pow2 (abs dy)) as [sqY | ]; simpl in *; [ | discriminate ].
  rewrite Hr. simpl. rewrite (truediv_abs_off_axis dx dy Hy). simpl.
  eauto.
Qed.

Lemma end_spoke_axis_aligned (radius dx dy : float) :
  off_axis dx dy = false ->
  exists r a, end_spoke radius dx dy = Ok (r, a, None) /\ spoke_radius dx dy = Ok r.
Proof.
  unfold off_axis, end_spoke, spoke_radius.
  destruct (dx =? 0) eqn:Ex; simpl.
  - intros _. eauto.
  - destruct (dy =? 0); simpl; [ | discriminate ]. intros _. eauto.
Qed.

(** Off the axes the end spoke passes the radius through unchanged. *)
Lemma end_spoke_off_axis (radius dx dy : float) :
  off_axis dx dy = true ->
  exists a s, end_spoke radius dx dy = Ok (radius, a, Some s).
Proof.
  intros Hoff. destruct (off_axis_false _ _ Hoff) as [Hx Hy].
  unfold end_spoke. rewrite Hx, Hy. simpl.
  rewrite (truediv_abs_off_axis dx dy Hy). simpl. eauto.
Qed.

(** Whenever one of the two spokes lies on an axis the conversion raises:
    the angle of that spoke is never bound. *)
Lemma convert_PolyStepCurve_axis_aligned_raises
    (startX startY ctrX ctrY endX endY : float) (cw : string) :
  off_axis (ctrX - startX) (ctrY - startY) = false
  \/ off_axis (ctrX - endX) (ctrY - endY) = false ->
  is_ok (convert_PolyStepCurve startX startY ctrX ctrY endX endY cw) = false.
Proof.
  intros H. unfold convert_PolyStepCurve.
  destruct (start_spoke (ctrX - startX) (ctrY - startY))
    as [[[r1 a1] [s1 | ]] | ex1] eqn:E1; simpl; try reflexivity.
  - destruct H as [H | H].
    + destruct (start_spoke_axis_aligned _ _ H) as (r & a & E & _).
      congruence.
    + destruct (end_spoke_axis_aligned r1 _ _ H) as (r & a & E & _).
      rewrite E. simpl. destruct (String.eqb cw "true"); reflexivity.
  - destruct (end_spoke r1 (ctrX - endX) (ctrY - endY))
      as [[[r2 a2] [s2 | ]] | ex2]; simpl; try reflexivity;
      destruct (String.eqb cw "true"); reflexivity.
Qed.

(** C1: on the quarter arc with start (1,0), centre (0,0), end (0,1) and
    clockwise=false the conversion returns no triple: both spokes are
    axis-aligned, the branches taken assign [angle1] and [angle2] and leave
    [startAngle] and [endAngle] unbound, and the [return] raises
    [UnboundLocalError] on [endAngle], the first of the two it reads. *)
Theorem convert_PolyStepCurve_quarter_arc_raises :
  convert_PolyStepCurve 1 0 0 0 0 1 "false"
  = Err (UnboundLocalError "endAngle").
Proof. reflexivity. Qed.

(** C4 (as amended): when both spokes are off the axes the conversion
    compares no radii and returns a triple whose radius is the one computed
    from the start spoke, whatever the end spoke's radius is; the end spoke
    contributes its angle only. *)
Theorem convert_PolyStepCurve_radius_of_start_spoke
    (startX startY ctrX ctrY endX endY : float) (cw : string) (r : float) :
  off_axis (ctrX - startX) (ctrY - startY) = true ->
  off_axis (ctrX - endX) (ctrY - endY) = true ->
  spoke_radius (ctrX - startX) (ctrY - startY) = Ok r ->
  exists a1 a2,
    convert_PolyStepCurve startX startY ctrX ctrY endX endY cw = Ok (r, a1, a2).
Proof.
  intros H1 H2 Hr. unfold convert_PolyStepCurve.
  destruct (start_spoke_off_axis _ _ _ H1 Hr) as (a & s & E1).
  destruct (end_spoke_off_axis r _ _ H2) as (b & t & E2).
  rewrite E1. simpl. rewrite E2. simpl.
  destruct (String.eqb cw "true"); simpl; eauto.
Qed.

End CurveFacts.

(** ** Statements about the outline width *)

(** The comparisons map the three units to their constants and every other
    string to [None]. *)
Lemma outline_width_of_unit_table :
  outline_width_of_unit "INCH" = VFloat 0x1.47ae147ae147bp-8
  /\ outline_width_of_unit "MILLIMETER" = VFloat 0x1.04189374bc6a8p-3
  /\ outline_width_of_unit "MICRON" = VFloat 127.
Proof. repeat split. Qed.

Lemma outline_width_of_unit_other (unit : string) :
  unit <> "INCH" -> unit <> "MILLIMETER" -> unit <> "MICRON" ->
  outline_width_of_unit unit = VNone.
Proof.
  intros H1 H2 H3. unfold outline_width_of_unit.
  apply String.eqb_neq in H1, H2, H3. rewrite H1, H2, H3. reflexivity.
Qed.

(** C2: the resolver returns no width for any document, whatever its units:
    it looks [getElementByTagName] up on the document, which has no such
    attribute, so every call raises [AttributeError] before the units are
    read. *)
Theorem set_outlineWidth_raises (pcb : document) :
  set_outlineWidth pcb = Err (AttributeError "Document" "getElementByTagName").
Proof. reflexivity. Qed.

(** The outline extraction therefore raises on every document. *)
Lemma get_Board_Outline_raises (pcb : document) :
  is_ok (get_Board_Outline pcb) = false.
Proof.
  unfold get_Board_Outline.
  destruct (first_item (doc_getElementsByTagName pcb "Profile")); reflexivity.
Qed.

(** So does the extraction proper, and [_parse] never returns board data:
    it returns [(None, None)] or raises. *)
Lemma parse_validated_raises (self : parser) (pcb : document) :
  is_ok (parse_validated self pcb) = false.
Proof.
  unfold parse_validated.
  destruct (get_Line_Widths pcb); cbn [bind]; [ | reflexivity ].
  destruct (get_Shapes pcb); cbn [bind]; [ | reflexivity ].
  destruct (get_LayerNames pcb).
  destruct (get_Metadata pcb) as [[[[title revision] company] file_date] | ];
    cbn [bind]; [ | reflexivity ].
  pose proof (get_Board_Outline_raises pcb) as H.
  destruct (get_Board_Outline pcb); [ discriminate H | reflexivity ].
Qed.

Lemma _parse_no_data_or_raises (self : parser) :
  snd (_parse self) = Ok (None, None) \/ is_ok (snd (_parse self)) = false.
Proof.
  unfold _parse. destruct (minidom_parse (file_name self)) as [pcb | ex].
  - destruct (validate_IPC2581 pcb) as [log [[ | ] | ex]]; cbn [snd].
    + pose proof (parse_validated_raises self pcb) as H.
      destruct (parse_validated self pcb) as [[data components] | ex];
        [ discriminate H | right; reflexivity ].
    + left. reflexivity.
    + right. reflexivity.
  - destruct ex; cbn [snd]; (left; reflexivity) || (right; reflexivity).
Qed.

(** ** Statements about the poly-step reconstruction *)

Lemma segment_dict_lookup (LastX LastY newX newY : float) (width : value) :
  segment_dict LastX LastY newX newY width !! "type" = Some (VStr "segment")
  /\ segment_dict LastX LastY newX newY width !! "start"
     = Some (VList [VFloat LastX; VFloat LastY])
  /\ segment_dict LastX LastY newX newY width !! "end"
     = Some (VList [VFloat newX; VFloat newY])
  /\ segment_dict LastX LastY newX newY width !! "wdith" = Some width
  /\ segment_dict LastX LastY newX newY width !! "width" = None.
Proof. repeat split; vm_compute; reflexivity. Qed.

(** An arc stores its width under the key [width]. *)
Lemma arc_dict_lookup_width (width : value) (CtrX CtrY : float)
    (arc : float * float * float) :
  arc_dict width CtrX CtrY arc !! "width" = Some width.
Proof. destruct arc as [[a0 a1] a2]. vm_compute. reflexivity. Qed.

(** C3: the unit square yields four segments that are chained, but no
    segment has a [width]: each stores the stroke width under the key
    [wdith]. *)
Theorem process_PolyStep_square (w : value) :
  py_float "0" = Ok 0%float ->
  py_float "1" = Ok 1%float ->
  let s1 := segment_dict 0 0 1 0 w in
  let s2 := segment_dict 1 0 1 1 w in
  let s3 := segment_dict 1 1 0 1 w in
  let s4 := segment_dict 0 1 0 0 w in
  process_PolyStep Samples.square_path w = Ok [s1; s2; s3; s4]
  /\ chained [s1; s2; s3; s4]
  /\ Forall (fun d : drawing =>
               d !! "type" = Some (VStr "segment")
               /\ d !! "wdith" = Some w
               /\ d !! "width" = None)
            [s1; s2; s3; s4].
Proof.
  intros H0 H1 s1 s2 s3 s4. split; [ | split ].
  - unfold process_PolyStep, Samples.square_path, Samples.step.
    cbn -[segment_dict]. rewrite ?H0, ?H1. cbn -[segment_dict]. reflexivity.
  - subst s1 s2 s3 s4. cbn [chained].
    repeat split; try (eexists; apply segment_dict_lookup);
      rewrite (proj1 (proj2 (proj2 (segment_dict_lookup _ _ _ _ _))));
      symmetry; apply segment_dict_lookup.
  - subst s1 s2 s3 s4.
    repeat (constructor; [ repeat split; apply segment_dict_lookup | ]).
    constructor.
Qed.

(** ** Statements about the validation gate *)

(** What the validation answers on a document whose first child is an
    element: it fails on a foreign tag and on a revision that compares
    greater than C, and passes otherwise. *)
Lemma validate_IPC2581_element (pcb : document) (tag : string)
    (attrs : list (string * string)) (children : list node) :
  firstChild pcb = Some (Element tag attrs children) ->
  snd (validate_IPC2581 pcb)
  = Ok (String.eqb tag "IPC-2581"
        && negb (str_gt (getAttribute (Element tag attrs children) "revision")
                   COMPATIBLE_IPC_REV)).
Proof.
  intros Hroot. unfold validate_IPC2581. rewrite Hroot. cbn [tagName].
  destruct (String.eqb tag "IPC-2581"); cbn [negb andb]; [ | reflexivity ].
  destruct (str_gt _ COMPATIBLE_IPC_REV); reflexivity.
Qed.

(** When the root element is the first child of the document and is not
    tagged IPC-2581, or has a revision that compares greater than C,
    [_parse] logs one error and returns the pair [(None, None)]: no board
    data and no component list. *)
Theorem _parse_returns_no_data_on_failed_validation
    (self : parser) (pcb : document) (tag : string)
    (attrs : list (string * string)) (children : list node) :
  minidom_parse (file_name self) = Ok pcb ->
  firstChild pcb = Some (Element tag attrs children) ->
  tag <> "IPC-2581"
  \/ str_gt (getAttribute (Element tag attrs children) "revision")
       COMPATIBLE_IPC_REV = true ->
  snd (validate_IPC2581 pcb) = Ok false
  /\ exists msg, _parse self = ([LogError msg], Ok (None, None)).
Proof.
  intros Hparse Hroot Hbad. split.
  - rewrite (validate_IPC2581_element _ _ _ _ Hroot).
    destruct Hbad as [Htag | Hrev].
    + apply String.eqb_neq in Htag. rewrite Htag. reflexivity.
    + rewrite Hrev. rewrite andb_false_r. reflexivity.
  - unfold _parse. rewrite Hparse. unfold validate_IPC2581. rewrite Hroot.
    cbn [tagName]. destruct (String.eqb tag "IPC-2581") eqn:Etag; cbn [negb].
    + destruct Hbad as [Htag | Hrev].
      * apply String.eqb_eq in Etag. contradiction.
      * rewrite Hrev. eauto.
    + eauto.
Qed.

(** C5: the validation reads the first child of the document, not its root
    element.  When a comment, a processing instruction or a doctype comes
    before a root element that is not tagged IPC-2581, or whose revision
    compares greater than C, [_parse] does not return [(None, None)]: it
    raises [AttributeError], with nothing logged. *)
Theorem _parse_raises_on_failing_root_after_non_element
    (self : parser) (pcb : document) (ty : nat) (tag : string)
    (attrs : list (string * string)) (children : list node) :
  minidom_parse (file_name self) = Ok pcb ->
  firstChild pcb = Some (NonElement ty) ->
  documentElement pcb = Some (Element tag attrs children) ->
  tag <> "IPC-2581"
  \/ str_gt (getAttribute (Element tag attrs children) "revision")
       COMPATIBLE_IPC_REV = true ->
  _parse self = ([], Err (AttributeError "Node" "tagName"))
  /\ snd (_parse self) <> Ok (None, None).
Proof.
  intros Hparse Hfirst _ _.
  assert (H : _parse self = ([], Err (AttributeError "Node" "tagName"))).
  { unfold _parse, validate_IPC2581. rewrite Hparse, Hfirst. reflexivity. }
  split; [ exact H | ]. rewrite H. cbn [snd]. discriminate.
Qed.

(** ** Statements about the layer drawings *)

(** A loop raises as soon as one of its items makes the body raise in every
    state. *)
Lemma for_each_raises {A S : Type} (xs : list A) (body : A -> S -> result S)
    (x : A) :
  In x xs ->
  (forall s, is_ok (body x s) = false) ->
  forall s, is_ok (for_each xs body s) = false.
Proof.
  intros Hin Hbody. induction xs as [ | y ys IH]; intros s.
  - destruct Hin.
  - cbn [for_each]. destruct Hin as [-> | Hin].
    + specialize (Hbody s). destruct (body x s); [ discriminate | reflexivity ].
    + destruct (body y s); cbn [bind]; [ apply IH, Hin | reflexivity ].
Qed.

Lemma is_ok_false {A : Type} (r : result A) :
  is_ok r = false -> exists ex, r = Err ex.
Proof. destruct r; [ discriminate | eauto ]. Qed.

(** C6: a polyline of the requested layer whose line-style id is missing
    from the table makes the lookup raise [KeyError] on that id, and the
    extraction as a whole ends in an exception: it returns no drawings, with
    no default width and without skipping the polyline. *)
Theorem get_LayerDrawings_dangling_line_style
    (pcb : document) (layerName : string) (lines : gmap string string)
    (feature poly styleRef : node) (others : list node) :
  In feature (doc_getElementsByTagName pcb "LayerFeature") ->
  getAttribute feature "layerRef" = layerName ->
  In poly (getElementsByTagName feature "Polyline") ->
  getElementsByTagName poly "LineDescRef" = styleRef :: others ->
  lines !! getAttribute styleRef "id" = None ->
  (forall drawings,
     polyline_step lines poly drawings
     = Err (KeyError (getAttribute styleRef "id")))
  /\ exists ex, get_LayerDrawings pcb (Some layerName) lines = Err ex.
Proof.
  intros Hfeature Hlayer Hpoly Href Hmiss.
  assert (Hstep : forall drawings,
             polyline_step lines poly drawings
             = Err (KeyError (getAttribute styleRef "id"))).
  { intros drawings. unfold polyline_step. rewrite Href. cbn [first_item bind].
    rewrite Hmiss. reflexivity. }
  split; [ exact Hstep | ].
  apply is_ok_false. unfold get_LayerDrawings.
  apply (for_each_raises _ _ feature Hfeature). intros drawings.
  unfold feature_step. rewrite Hlayer, String.eqb_refl.
  apply (for_each_raises _ _ poly Hpoly). intros ds. rewrite Hstep. reflexivity.
Qed.

(** C9: with no layer name the extraction returns the empty list of
    drawings, whatever the document and the table are. *)
Theorem get_LayerDrawings_absent_layer
    (pcb : document) (lines : gmap string string) :
  get_LayerDrawings pcb None lines = Ok [].
Proof. reflexivity. Qed.

(** ** Statements about the layer roles *)

Lemma layer_step_unconsumed (r : layer_refs) (l : node) :
  consumed l = false -> layer_step r l = r.
Proof.
  unfold consumed, layer_step. destruct r.
  destruct (String.eqb (getAttribute l "side") "TOP"),
    (String.eqb (getAttribute l "side") "BOTTOM"),
    (String.eqb (getAttribute l "layerFunction") "DOCUMENT"),
    (String.eqb (getAttribute l "layerFunction") "CONDUCTOR"),
    (String.eqb (getAttribute l "layerFunction") "ASSEMBLY");
    cbn; intros H; try discriminate; reflexivity.
Qed.

Lemma fold_layer_step_unconsumed (ls : list node) (r : layer_refs) :
  Forall (fun l => consumed l = false) ls -> fold_left layer_step ls r = r.
Proof.
  induction 1 as [ | l ls Hl _ IH]; cbn [fold_left]; [ reflexivity | ].
  rewrite (layer_step_unconsumed r l Hl). exact IH.
Qed.

(** C7: when the layer declarations of a document are one declaration with
    side TOP, function CONDUCTOR and name L1, alone or among declarations
    that are not consumed, the resolver returns L1 as the top copper layer
    and [None] for the other five roles.  The resolver has no failure: the
    declarations that are not consumed change nothing. *)
Theorem get_LayerNames_single_top_conductor
    (pcb : document) (l : node) (before after : list node) :
  doc_getElementsByTagName pcb "Layer" = before ++ l :: after ->
  Forall (fun x => consumed x = false) (before ++ after) ->
  getAttribute l "side" = "TOP" ->
  getAttribute l "layerFunction" = "CONDUCTOR" ->
  getAttribute l "name" = "L1" ->
  get_LayerNames pcb = LayerRefs (Some "L1") None None None None None.
Proof.
  intros Hlayers Hrest Hside Hfun Hname.
  apply Forall_app in Hrest as [Hbefore Hafter].
  unfold get_LayerNames. rewrite Hlayers, fold_left_app. cbn [fold_left].
  rewrite (fold_layer_step_unconsumed before _ Hbefore).
  rewrite (fold_layer_step_unconsumed after _ Hafter).
  unfold layer_step, no_layers. rewrite Hside, Hfun, Hname. reflexivity.
Qed.

(** ** Statements about the components *)

Lemma last_named_snoc (k : string) (ns : list node) (n : node) :
  last_named k (ns ++ [n])
  = if String.eqb (getAttribute n "name") k
    then Some (getAttribute n "value") else last_named k ns.
Proof.
  unfold last_named. rewrite List.filter_app. cbn [List.filter].
  destruct (String.eqb (getAttribute n "name") k).
  - rewrite map_app. cbn [map]. apply last_snoc.
  - rewrite app_nil_r. reflexivity.
Qed.

Lemma get_Component_Val_last_named (comp : node) :
  get_Component_Val comp
  = default (getAttribute comp "part")
      (last_named "VALUE" (getElementsByTagName comp "NonstandardAttribute")).
Proof.
  unfold get_Component_Val.
  induction (getElementsByTagName comp "NonstandardAttribute")
    as [ | n ns IH] using rev_ind; [ reflexivity | ].
  rewrite fold_left_app, last_named_snoc. cbn [fold_left].
  destruct (String.eqb (getAttribute n "name") "VALUE"); [ reflexivity | exact IH ].
Qed.

Lemma fold_insert_last_named (ns : list node) (k : string) :
  fold_left
    (fun (extra : gmap string string) n =>
       <[getAttribute n "name" := getAttribute n "value"]> extra)
    ns ∅ !! k
  = last_named k ns.
Proof.
  induction ns as [ | n ns IH] using rev_ind; [ reflexivity | ].
  rewrite fold_left_app, last_named_snoc. cbn [fold_left].
  destruct (String.eqb_spec (getAttribute n "name") k) as [-> | Hne].
  - apply lookup_insert_eq.
  - rewrite lookup_insert_ne by exact Hne. exact IH.
Qed.

Lemma component_extra_fields_lookup (c : node) (k : string) :
  component_extra_fields c !! k
  = last_named k (getElementsByTagName c "NonstandardAttribute").
Proof.
  unfold component_extra_fields.
  destruct (getElementsByTagName c "NonstandardAttribute") as [ | n ns] eqn:E.
  - reflexivity.
  - apply fold_insert_last_named.
Qed.

(** C8: the value of a component is the value of its last nonstandard
    attribute named VALUE when there is one and its [part] attribute
    otherwise, and its extra fields map every attribute name, VALUE
    included, to the value of the last nonstandard attribute of that name. *)
Theorem component_of_value_and_extra_fields (c : node) :
  let NSAttr := getElementsByTagName c "NonstandardAttribute" in
  val (component_of c)
  = default (getAttribute c "part") (last_named "VALUE" NSAttr)
  /\ (forall k, extra_fields (component_of c) !! k = last_named k NSAttr)
  /\ extra_fields (component_of c) !! "VALUE" = last_named "VALUE" NSAttr.
Proof.
  intros NSAttr. subst NSAttr. cbn [val extra_fields component_of].
  split; [ apply get_Component_Val_last_named | ].
  split; [ intros k | ]; apply component_extra_fields_lookup.
Qed.

(** ** Statements about the extra field data *)

(** C10: the query returns [None], with nothing logged, exactly when the
    absolute path of the requested file differs from the absolute path of
    the parser's own file; on a matching path it parses the file again and
    its answer is never [None]. *)
Theorem get_extra_field_data_none_iff_other_file
    (self : parser) (name : string) :
  get_extra_field_data self name = ([], Ok None)
  <-> abspath name <> abspath (file_name self).
Proof.
  unfold get_extra_field_data.
  destruct (String.eqb_spec (abspath name) (abspath (file_name self)))
    as [Heq | Hne]; cbn [negb].
  - split; [ | intros H; contradiction ].
    destruct (_parse self) as [log [[data [cs | ]] | ex]]; cbn [bind];
      try (intros H; inversion H; fail).
    destruct (fold_left field_step cs (∅, ∅)). intros H. inversion H.
  - split; [ intros _; exact Hne | reflexivity ].
Qed.

(** X22: on a matching path the query ends in an exception: [_parse]
    raises, or it returns [(None, None)] and the loop over [None] raises. *)
Lemma get_extra_field_data_same_file_raises (self : parser) (name : string) :
  abspath name = abspath (file_name self) ->
  is_ok (snd (get_extra_field_data self name)) = false.
Proof.
  intros Heq. unfold get_extra_field_data.
  rewrite Heq, String.eqb_refl. cbn [negb].
  destruct (_parse_no_data_or_raises self) as [H | H];
    destruct (_parse self) as [log parsed]; cbn [snd] in *.
  - rewrite H. reflexivity.
  - destruct parsed; [ discriminate H | reflexivity ].
Qed.

(** ** Further statements about the curve conversion *)

Section CurveReturns.

Import PyFloat.
Local Open Scope float_scope.

Lemma start_spoke_off_axis_error (dx dy : float) :
  off_axis dx dy = true ->
  is_ok (spoke_radius dx dy) = false ->
  is_ok (start_spoke dx dy) = false.
Proof.
  intros Hoff Hr. destruct (off_axis_false _ _ Hoff) as [Hx Hy].
  unfold start_spoke, spoke_radius in *. rewrite Hx, Hy in *. simpl in *.
  destruct (pow2 (abs dx)) as [sqX | ]; simpl in *; [ | reflexivity ].
  destruct (pow2 (abs dy)) as [sqY | ]; simpl in *; [ | reflexivity ].
  destruct (math_sqrt (sqX + sqY)); simpl in *; [ discriminate | reflexivity ].
Qed.

(** X1: the conversion returns a triple exactly when both spokes are off the
    axes and the radius of the start spoke computes; in every other case it
    raises. *)
Theorem convert_PolyStepCurve_returns_iff
    (startX startY ctrX ctrY endX endY : float) (cw : string) :
  is_ok (convert_PolyStepCurve startX startY ctrX ctrY endX endY cw) = true
  <-> off_axis (ctrX - startX) (ctrY - startY) = true
      /\ off_axis (ctrX - endX) (ctrY - endY) = true
      /\ is_ok (spoke_radius (ctrX - startX) (ctrY - startY)) = true.
Proof.
  split.
  - intros Hok.
    destruct (off_axis (ctrX - startX) (ctrY - startY)) eqn:H1.
    2: { rewrite convert_PolyStepCurve_axis_aligned_raises in Hok
           by (left; exact H1). discriminate. }
    destruct (off_axis (ctrX - endX) (ctrY - endY)) eqn:H2.
    2: { rewrite convert_PolyStepCurve_axis_aligned_raises in Hok
           by (right; exact H2). discriminate. }
    repeat split.
    destruct (is_ok (spoke_radius (ctrX - startX) (ctrY - startY))) eqn:Hr;
      [ reflexivity | ].
    pose proof (start_spoke_off_axis_error _ _ H1 Hr) as He.
    unfold convert_PolyStepCurve in Hok.
    destruct (start_spoke (ctrX - startX) (ctrY - startY));
      [ discriminate He | discriminate Hok ].
  - intros (H1 & H2 & Hr).
    destruct (spoke_radius (ctrX - startX) (ctrY - startY)) as [r | ] eqn:Er;
      [ | discriminate Hr ].
    destruct (start_spoke_off_axis _ _ _ H1 Er) as (a & s & E1).
    destruct (end_spoke_off_axis r _ _ H2) as (b & t & E2).
    unfold convert_PolyStepCurve. rewrite E1. simpl. rewrite E2. simpl.
    destruct (String.eqb cw "true"); reflexivity.
Qed.

(** X2: the direction is clockwise only for the string [true]; with any
    other string the conversion returns the same radius with the two angles
    in the opposite order. *)
Theorem convert_PolyStepCurve_direction_swaps_angles
    (startX startY ctrX ctrY endX endY : float) (cw : string)
    (r a b : float) :
  cw <> "true" ->
  convert_PolyStepCurve startX startY ctrX ctrY endX endY "true" = Ok (r, a, b)
  <-> convert_PolyStepCurve startX startY ctrX ctrY endX endY cw = Ok (r, b, a).
Proof.
  intros Hcw. apply String.eqb_neq in Hcw. unfold convert_PolyStepCurve.
  rewrite Hcw. cbn [String.eqb Ascii.eqb Bool.eqb].
  destruct (start_spoke (ctrX - startX) (ctrY - startY))
    as [[[r1 a1] [s1 | ]] | ex1]; cbn [bind read_local];
    [ | | split; discriminate ].
  - destruct (end_spoke r1 (ctrX - endX) (ctrY - endY))
      as [[[r2 a2] [s2 | ]] | ex2]; cbn [bind read_local];
      [ | split; discriminate | split; discriminate ].
    split; intros H; inversion H; reflexivity.
  - destruct (end_spoke r1 (ctrX - endX) (ctrY - endY))
      as [[[r2 a2] [s2 | ]] | ex2]; cbn [bind read_local];
      split; discriminate.
Qed.

End CurveReturns.

(** ** Further statements about the poly-step reconstruction *)

Lemma for_each_app {A S : Type} (xs ys : list A) (body : A -> S -> result S)
    (s : S) :
  for_each (xs ++ ys) body s
  = (do s' <- for_each xs body s; for_each ys body s').
Proof.
  revert s. induction xs as [ | x xs IH]; intros s; cbn [for_each app bind].
  - reflexivity.
  - destruct (body x s); cbn [bind]; [ apply IH | reflexivity ].
Qed.

(** A property that every step of a loop keeps holds at its end. *)
Lemma for_each_invariant {A S : Type} (I : S -> Prop) (xs : list A)
    (body : A -> S -> result S) :
  (forall x s s', In x xs -> body x s = Ok s' -> I s -> I s') ->
  forall s s', for_each xs body s = Ok s' -> I s -> I s'.
Proof.
  induction xs as [ | x xs IH]; intros Hstep s s' Hrun Hs; cbn [for_each] in Hrun.
  - inversion Hrun. subst. exact Hs.
  - destruct (body x s) as [s1 | ] eqn:E; cbn [bind] in Hrun; [ | discriminate ].
    apply (IH (fun y t t' Hy => Hstep y t t' (or_intror Hy)) s1 s' Hrun).
    apply (Hstep x s s1 (or_introl eq_refl) E Hs).
Qed.

Lemma arc_dict_lookup (width : value) (CtrX CtrY : float)
    (arc : float * float * float) :
  arc_dict width CtrX CtrY arc !! "type" = Some (VStr "arc")
  /\ arc_dict width CtrX CtrY arc !! "width" = Some width
  /\ arc_dict width CtrX CtrY arc !! "start"
     = Some (VList [VFloat CtrX; VFloat CtrY]).
Proof. destruct arc as [[a0 a1] a2]. repeat split; vm_compute; reflexivity. Qed.

(** One step of the loop either leaves the list of drawings as it is, or
    appends one drawing; it appends exactly on the children that emit. *)
Lemma poly_step_ok (w : value) (p : node) (st st' : poly_state) :
  poly_step w p st = Ok st' ->
  (emits p = false /\ e st' = e st)
  \/ (exists d, emits p = true /\ e st' = e st ++ [d] /\ emitted_with w d).
Proof.
  unfold poly_step. destruct p as [t attrs ch | ty].
  - cbn [nodeType tagName bind Nat.eqb ELEMENT_NODE]. unfold emits.
    destruct (String.eqb t "PolyBegin") eqn:E1.
    { apply String.eqb_eq in E1. subst t.
      destruct (py_float _); cbn [bind]; [ | discriminate ].
      destruct (py_float _); cbn [bind]; [ | discriminate ].
      intros H. inversion H. left. split; reflexivity. }
    destruct (String.eqb t "PolyStepSegment") eqn:E2.
    { destruct (py_float _); cbn [bind]; [ | discriminate ].
      destruct (py_float _); cbn [bind]; [ | discriminate ].
      intros H. inversion H. right. eexists. cbn [e orb].
      split; [ reflexivity | ]. split; [ reflexivity | ].
      left. repeat split; apply segment_dict_lookup. }
    destruct (String.eqb t "PolyStepCurve") eqn:E3.
    { destruct (py_float _); cbn [bind]; [ | discriminate ].
      destruct (py_float _); cbn [bind]; [ | discriminate ].
      destruct (py_float _); cbn [bind]; [ | discriminate ].
      destruct (py_float _); cbn [bind]; [ | discriminate ].
      destruct (convert_PolyStepCurve _ _ _ _ _ _ _); cbn [bind];
        [ | discriminate ].
      intros H. inversion H. right. eexists. cbn [e orb].
      split; [ reflexivity | ]. split; [ reflexivity | ].
      right. split; apply arc_dict_lookup. }
    intros H. inversion H. left. split; reflexivity.
  - cbn [nodeType]. destruct (Nat.eqb ty ELEMENT_NODE).
    + cbn [tagName bind]. discriminate.
    + intros H. inversion H. left. split; reflexivity.
Qed.

(** A line segment starts at the point before the step and ends at the
    point after it. *)
Lemma poly_step_segment (w : value) (p : node) (st st' : poly_state) :
  segment_or_skipped p = true ->
  poly_step w p st = Ok st' ->
  st' = st
  \/ e st' = e st ++ [segment_dict (NewX st) (NewY st) (NewX st') (NewY st') w].
Proof.
  unfold poly_step, segment_or_skipped. destruct p as [t attrs ch | ty].
  - cbn [nodeType tagName bind Nat.eqb ELEMENT_NODE].
    destruct (String.eqb t "PolyBegin"); cbn [negb andb]; [ discriminate | ].
    destruct (String.eqb t "PolyStepCurve"); cbn [negb]; [ discriminate | ].
    intros _. destruct (String.eqb t "PolyStepSegment").
    + destruct (py_float _); cbn [bind]; [ | discriminate ].
      destruct (py_float _); cbn [bind]; [ | discriminate ].
      intros H. inversion H. right. reflexivity.
    + intros H. inversion H. left. reflexivity.
  - intros _. cbn [nodeType]. destruct (Nat.eqb ty ELEMENT_NODE).
    + cbn [tagName bind]. discriminate.
    + intros H. inversion H. left. reflexivity.
Qed.

Lemma chained_snoc (ds : list drawing) (s : drawing) :
  chained ds ->
  (forall d, last ds = Some d ->
             is_Some (d !! "end") /\ d !! "end" = s !! "start") ->
  chained (ds ++ [s]).
Proof.
  induction ds as [ | d1 ds IH]; intros Hds Hlast; [ exact I | ].
  destruct ds as [ | d2 ds'].
  - cbn. destruct (Hlast d1 eq_refl) as [Hsome Hend]. auto.
  - cbn [app chained] in *. destruct Hds as (Hsome & Hend & Hrest).
    split; [ exact Hsome | ]. split; [ exact Hend | ].
    apply IH; [ exact Hrest | ]. intros d Hd. apply Hlast.
    rewrite last_cons_cons. exact Hd.
Qed.

(** X3: when the reconstruction returns, it has emitted one drawing for
    every [PolyStepSegment] and [PolyStepCurve] child and nothing for any
    other child: text and comment nodes, [PolyBegin] and elements of other
    tags. *)
Theorem process_PolyStep_length (n : node) (w : value) (ds : list drawing) :
  process_PolyStep n w = Ok ds ->
  length ds = length (List.filter emits (childNodes n)).
Proof.
  unfold process_PolyStep.
  destruct (for_each (childNodes n) (poly_step w) poly_init) as [st | ] eqn:E;
    cbn [bind]; [ | discriminate ].
  intros H. inversion H. subst ds. clear H.
  assert (G : forall xs s s',
             for_each xs (poly_step w) s = Ok s' ->
             length (e s') = length (e s) + length (List.filter emits xs)).
  { induction xs as [ | x xs IH]; intros s s' Hrun; cbn [for_each] in Hrun.
    - inversion Hrun. cbn. lia.
    - destruct (poly_step w x s) as [s1 | ] eqn:E1; cbn [bind] in Hrun;
        [ | discriminate ].
      rewrite (IH _ _ Hrun). cbn [List.filter].
      destruct (poly_step_ok _ _ _ _ E1) as [[Hem He] | (d & Hem & He & _)];
        rewrite Hem, He; [ reflexivity | ].
      rewrite length_app. cbn [length]. lia. }
  rewrite (G _ _ _ E). reflexivity.
Qed.

Lemma process_PolyStep_emitted (n : node) (w : value) (ds : list drawing) :
  process_PolyStep n w = Ok ds -> Forall (emitted_with w) ds.
Proof.
  unfold process_PolyStep.
  destruct (for_each (childNodes n) (poly_step w) poly_init) as [st | ] eqn:E;
    cbn [bind]; [ | discriminate ].
  intros H. inversion H. subst ds. clear H.
  apply (for_each_invariant (fun s => Forall (emitted_with w) (e s))
           (childNodes n) (poly_step w)) with (s := poly_init) (s' := st);
    [ | exact E | constructor ].
  intros x s s' _ Hstep Hs.
  destruct (poly_step_ok _ _ _ _ Hstep) as [[_ He] | (d & _ & He & Hd)];
    rewrite He; [ exact Hs | ].
  apply Forall_app. split; [ exact Hs | ]. constructor; [ exact Hd | constructor ].
Qed.

(** X4: every drawing that the reconstruction returns is a segment with the
    stroke width under the key [wdith] and no key [width], or an arc with
    the stroke width under the key [width]. *)
Theorem process_PolyStep_emitted_keys (n : node) (w : value)
    (ds : list drawing) :
  process_PolyStep n w = Ok ds -> Forall (emitted_with w) ds.
Proof. apply process_PolyStep_emitted. Qed.

(** X5: in a path whose children are first children that emit nothing (a
    [PolyBegin], say) and then line segments and passed-over nodes only, the
    segments that the reconstruction returns are chained: each one ends
    where the next one starts. *)
Theorem process_PolyStep_segments_chained
    (n : node) (w : value) (before segments : list node) (ds : list drawing) :
  childNodes n = before ++ segments ->
  Forall (fun p => emits p = false) before ->
  Forall (fun p => segment_or_skipped p = true) segments ->
  process_PolyStep n w = Ok ds ->
  chained ds.
Proof.
  intros Hch Hbefore Hsegs. unfold process_PolyStep.
  rewrite Hch, for_each_app.
  destruct (for_each before (poly_step w) poly_init) as [s0 | ] eqn:E0;
    cbn [bind]; [ | discriminate ].
  destruct (for_each segments (poly_step w) s0) as [s1 | ] eqn:E1;
    cbn [bind]; [ | discriminate ].
  intros H. inversion H. subst ds. clear H.
  assert (H0 : e s0 = []).
  { apply (for_each_invariant (fun s => e s = []) before (poly_step w))
      with (s := poly_init) (s' := s0); [ | exact E0 | reflexivity ].
    intros x s s' Hx Hstep Hs.
    destruct (poly_step_ok _ _ _ _ Hstep) as [[_ He] | (d & Hem & _)].
    - rewrite He. exact Hs.
    - rewrite Forall_forall in Hbefore. rewrite (Hbefore x) in Hem
        by (apply list_elem_of_In; exact Hx). discriminate. }
  pose (J := fun s : poly_state =>
               chained (e s)
               /\ forall d, last (e s) = Some d ->
                    d !! "end" = Some (VList [VFloat (NewX s); VFloat (NewY s)])).
  assert (HJ : J s1).
  { apply (for_each_invariant J segments (poly_step w)) with (s := s0) (s' := s1);
      [ | exact E1 | ].
    - intros x s s' Hx Hstep [Hc Hl].
      rewrite Forall_forall in Hsegs.
      assert (Hseg : segment_or_skipped x = true)
        by (apply Hsegs, list_elem_of_In; exact Hx).
      destruct (poly_step_segment _ _ _ _ Hseg Hstep) as [-> | He].
      + split; assumption.
      + split.
        * rewrite He. apply chained_snoc; [ exact Hc | ].
          intros d Hd. rewrite (Hl d Hd). split; [ eauto | ].
          symmetry. apply segment_dict_lookup.
        * intros d. rewrite He, last_snoc. intros Hd. inversion Hd.
          apply segment_dict_lookup.
    - split; rewrite H0; [ exact I | discriminate ]. }
  exact (proj1 HJ).
Qed.

(** X6: one child with coordinates whose [x] or [y] does not convert with
    [float] makes the reconstruction raise: no drawing of the path is
    returned, not even those of the children before it. *)
Theorem process_PolyStep_bad_coordinate (n : node) (w : value) (p : node) :
  In p (childNodes n) ->
  reads_point p = true ->
  is_ok (py_float (getAttribute p "x")) = false
  \/ is_ok (py_float (getAttribute p "y")) = false ->
  exists ex, process_PolyStep n w = Err ex.
Proof.
  intros Hin Hreads Hbad. apply is_ok_false. unfold process_PolyStep.
  assert (Hstep : forall s, is_ok (poly_step w p s) = false).
  { intros s. unfold poly_step. destruct p as [t attrs ch | ty];
      [ | discriminate Hreads ].
    cbn [nodeType tagName bind Nat.eqb ELEMENT_NODE].
    unfold reads_point in Hreads.
    assert (Hxy : forall (k : float -> float -> result poly_state),
               is_ok (do newX <- py_float (getAttribute (Element t attrs ch) "x");
                      do newY <- py_float (getAttribute (Element t attrs ch) "y");
                      k newX newY) = false).
    { intros k. destruct (py_float (getAttribute _ "x")); cbn [bind];
        [ | reflexivity ].
      destruct (py_float (getAttribute _ "y")); cbn [bind]; [ | reflexivity ].
      destruct Hbad as [Hbad | Hbad]; discriminate Hbad. }
    destruct (String.eqb t "PolyBegin");
      [ exact (Hxy (fun x y => Ok (PolyState x y (e s)))) | ].
    destruct (String.eqb t "PolyStepSegment");
      [ exact (Hxy (fun x y => Ok (PolyState x y _))) | ].
    destruct (String.eqb t "PolyStepCurve"); [ | discriminate Hreads ].
    exact (Hxy (fun x y =>
                  do CtrX <- py_float (getAttribute (Element t attrs ch) "centerX");
                  do CtrY <- py_float (getAttribute (Element t attrs ch) "centerY");
                  do arc <- convert_PolyStepCurve (NewX s) (NewY s) CtrX CtrY x y
                              (getAttribute (Element t attrs ch) "clockwise");
                  Ok (PolyState x y (e s ++ [arc_dict w CtrX CtrY arc])))). }
  pose proof (for_each_raises _ _ p Hin Hstep poly_init) as H.
  destruct (for_each (childNodes n) (poly_step w) poly_init);
    [ discriminate H | reflexivity ].
Qed.

(** ** Statements about the line-width table *)

Lemma last_entry_width_cons (k : string) (l : node) (entries : list node) :
  last_entry_width k (l :: entries)
  = match last_entry_width k entries with
    | Some v => Some v
    | None =>
        if String.eqb (getAttribute l "id") k then Some (entry_width l) else None
    end.
Proof.
  unfold last_entry_width. cbn [List.filter].
  destruct (String.eqb (getAttribute l "id") k); [ | destruct (last _); reflexivity ].
  cbn [map]. apply last_cons.
Qed.

(** X7: the table is built exactly when every [EntryLineDesc] has a
    [LineDesc] below it; one entry without it makes the builder raise. *)
Theorem get_Line_Widths_returns_iff (pcb : document) :
  is_ok (get_Line_Widths pcb) = true
  <-> Forall (fun l => getElementsByTagName l "LineDesc" <> [])
        (doc_getElementsByTagName pcb "EntryLineDesc").
Proof.
  unfold get_Line_Widths.
  generalize (∅ : gmap string string) as lines.
  induction (doc_getElementsByTagName pcb "EntryLineDesc") as [ | l ls IH];
    intros lines; cbn [for_each].
  - split; [ constructor | reflexivity ].
  - destruct (getElementsByTagName l "LineDesc") as [ | desc rest] eqn:E;
      cbn [first_item bind].
    + split; [ discriminate | ]. intros H. inversion H as [ | ? ? Hl _].
      rewrite E in Hl. contradiction.
    + rewrite IH. split.
      * intros H. constructor; [ rewrite E; discriminate | exact H ].
      * intros H. inversion H. assumption.
Qed.

(** X8: in the table that the builder returns, an id maps to the
    [lineWidth] of the first [LineDesc] of the last [EntryLineDesc] with
    that id, and an id that no entry declares is absent. *)
Theorem get_Line_Widths_lookup (pcb : document) (lines : gmap string string)
    (k : string) :
  get_Line_Widths pcb = Ok lines ->
  lines !! k
  = last_entry_width k (doc_getElementsByTagName pcb "EntryLineDesc").
Proof.
  unfold get_Line_Widths.
  assert (G : forall ls (acc : gmap string string),
             for_each ls
               (fun l (lines : gmap string string) =>
                  do desc <- first_item (getElementsByTagName l "LineDesc");
                  Ok (<[getAttribute l "id" := getAttribute desc "lineWidth"]> lines))
               acc = Ok lines ->
             lines !! k
             = match last_entry_width k ls with
               | Some v => Some v
               | None => acc !! k
               end).
  { induction ls as [ | l ls IH]; intros acc Hrun; cbn [for_each] in Hrun.
    - inversion Hrun. reflexivity.
    - destruct (getElementsByTagName l "LineDesc") as [ | desc rest] eqn:E;
        cbn [first_item bind] in Hrun; [ discriminate | ].
      rewrite (IH _ Hrun), last_entry_width_cons.
      destruct (last_entry_width k ls); [ reflexivity | ].
      unfold entry_width. rewrite E.
      destruct (String.eqb_spec (getAttribute l "id") k) as [-> | Hne].
      + apply lookup_insert_eq.
      + rewrite lookup_insert_ne by exact Hne. reflexivity. }
  intros Hrun. rewrite (G _ _ Hrun).
  destruct (last_entry_width k _); reflexivity.
Qed.

(** ** Further statements about the layer roles *)

Lemma last_layer_snoc (side function : string) (ls : list node) (l : node) :
  last_layer side function (ls ++ [l])
  = if String.eqb (getAttribute l "side") side
       && String.eqb (getAttribute l "layerFunction") function
    then Some (getAttribute l "name") else last_layer side function ls.
Proof.
  unfold last_layer. rewrite List.filter_app. cbn [List.filter].
  destruct (String.eqb (getAttribute l "side") side
            && String.eqb (getAttribute l "layerFunction") function).
  - rewrite map_app. cbn [map]. apply last_snoc.
  - rewrite app_nil_r. reflexivity.
Qed.

(** X9: each of the six roles is the name of the last layer declaration
    with its side and function, and [None] when there is none: copper from
    CONDUCTOR, silkscreen from DOCUMENT, assembly from ASSEMBLY.  A later
    declaration of a role replaces an earlier one, and the roles do not
    affect each other. *)
Theorem get_LayerNames_last_declaration (pcb : document) :
  let layers := doc_getElementsByTagName pcb "Layer" in
  get_LayerNames pcb
  = LayerRefs (last_layer "TOP" "CONDUCTOR" layers)
              (last_layer "BOTTOM" "CONDUCTOR" layers)
              (last_layer "TOP" "DOCUMENT" layers)
              (last_layer "BOTTOM" "DOCUMENT" layers)
              (last_layer "TOP" "ASSEMBLY" layers)
              (last_layer "BOTTOM" "ASSEMBLY" layers).
Proof.
  intros layers. subst layers. unfold get_LayerNames.
  induction (doc_getElementsByTagName pcb "Layer") as [ | l ls IH] using rev_ind;
    [ reflexivity | ].
  rewrite fold_left_app. cbn [fold_left]. rewrite IH, !last_layer_snoc.
  unfold layer_step.
  generalize (getAttribute l "side") (getAttribute l "layerFunction")
    (getAttribute l "name").
  intros sd fn nm.
  destruct (String.eqb_spec sd "TOP"), (String.eqb_spec sd "BOTTOM"),
    (String.eqb_spec fn "DOCUMENT"), (String.eqb_spec fn "CONDUCTOR"),
    (String.eqb_spec fn "ASSEMBLY");
    cbn [andb]; try reflexivity; congruence.
Qed.

(** ** Further statements about the validation and [_parse] *)

(** X10: a revision compares greater than C exactly when its first
    character is above C, or is C and more characters follow: the empty
    string, C itself and every string that starts below C are accepted,
    whatever follows the first character. *)
Theorem str_gt_compatible_revision (rev : string) :
  str_gt rev COMPATIBLE_IPC_REV
  = match rev with
    | EmptyString => false
    | String c rest =>
        match Ascii.compare c "C"%char with
        | Gt => true
        | Eq => negb (String.eqb rest "")
        | Lt => false
        end
    end.
Proof.
  unfold str_gt, COMPATIBLE_IPC_REV. destruct rev as [ | c rest];
    [ reflexivity | ].
  cbn [String.compare]. destruct (Ascii.compare c "C"%char); try reflexivity.
  destruct rest; reflexivity.
Qed.

(** X11: the validation passes, logging nothing, exactly when the first
    child of the document is an element tagged IPC-2581 whose revision does
    not compare greater than C; an element without a revision attribute
    passes. *)
Theorem validate_IPC2581_passes_iff (pcb : document) :
  validate_IPC2581 pcb = ([], Ok true)
  <-> exists attrs children,
        firstChild pcb = Some (Element "IPC-2581" attrs children)
        /\ str_gt (default "" (assoc "revision" attrs)) COMPATIBLE_IPC_REV
           = false.
Proof.
  unfold validate_IPC2581. destruct (firstChild pcb) as [[tag attrs ch | ty] | ].
  - cbn [tagName getAttribute].
    destruct (String.eqb_spec tag "IPC-2581") as [-> | Htag]; cbn [negb].
    + destruct (str_gt (default "" (assoc "revision" attrs)) COMPATIBLE_IPC_REV)
        eqn:Erev.
      * split; [ discriminate | ].
        intros (attrs' & ch' & Hroot & Hrev). inversion Hroot. subst.
        rewrite Erev in Hrev. discriminate.
      * split; [ intros _; eauto | reflexivity ].
    + split; [ discriminate | ].
      intros (attrs' & ch' & Hroot & _). inversion Hroot. contradiction.
  - cbn [tagName]. split; [ discriminate | ].
    intros (attrs' & ch' & Hroot & _). discriminate.
  - split; [ discriminate | ]. intros (attrs' & ch' & Hroot & _). discriminate.
Qed.

(** X12: a document whose first child is not an element (a comment, a
    processing instruction or a doctype before the root) makes [_parse]
    raise [AttributeError], with nothing logged, whatever the root element
    is. *)
Theorem _parse_raises_on_leading_non_element
    (self : parser) (pcb : document) (ty : nat) :
  minidom_parse (file_name self) = Ok pcb ->
  firstChild pcb = Some (NonElement ty) ->
  _parse self = ([], Err (AttributeError "Node" "tagName")).
Proof.
  intros Hparse Hroot. unfold _parse, validate_IPC2581.
  rewrite Hparse, Hroot. reflexivity.
Qed.

(** X13: whatever [_parse] returns is the pair [(None, None)]: it never
    returns board data or a component list, because the outline extraction
    raises on every document that passes the validation. *)
Theorem _parse_returns_only_no_data
    (self : parser) (data : option pcbdata)
    (components : option (list Component)) :
  snd (_parse self) = Ok (data, components) ->
  data = None /\ components = None.
Proof.
  intros H. destruct (_parse_no_data_or_raises self) as [Hnone | Herr].
  - rewrite Hnone in H. inversion H. split; reflexivity.
  - rewrite H in Herr. discriminate.
Qed.

(** X14: the outline extraction raises on every document: [IndexError] when
    there is no [Profile] element, and otherwise the [AttributeError] of the
    width resolver, before the polygon is looked at. *)
Theorem get_Board_Outline_error (pcb : document) :
  get_Board_Outline pcb
  = Err (match doc_getElementsByTagName pcb "Profile" with
         | [] => IndexError
         | _ :: _ => AttributeError "Document" "getElementByTagName"
         end).
Proof.
  unfold get_Board_Outline.
  destruct (doc_getElementsByTagName pcb "Profile"); reflexivity.
Qed.

(** ** Statements about [parse] *)

Lemma parse_of_no_data (self : parser) :
  snd (_parse self) = Ok (None, None) ->
  snd (parse self) = Err (TypeError "'NoneType' object is not subscriptable").
Proof.
  unfold parse. destruct (_parse self) as [log parsed]. cbn [snd].
  intros ->. reflexivity.
Qed.

(** X15: [parse] never returns: for every file and every configuration it
    ends in an exception. *)
Theorem parse_raises (self : parser) : is_ok (snd (parse self)) = false.
Proof.
  destruct (_parse_no_data_or_raises self) as [Hnone | Herr].
  - rewrite (parse_of_no_data self Hnone). reflexivity.
  - unfold parse. destruct (_parse self) as [log parsed]. cbn [snd] in *.
    destruct parsed; [ discriminate Herr | reflexivity ].
Qed.

(** X16: on a file that is not XML, and on a document that fails the
    validation, [parse] does not hand the missing data on: it subscripts the
    [None] that [_parse] returned and raises [TypeError]. *)
Theorem parse_raises_TypeError_without_data (self : parser) :
  (exists message, minidom_parse (file_name self) = Err (ExpatError message))
  \/ (exists pcb, minidom_parse (file_name self) = Ok pcb
                  /\ snd (validate_IPC2581 pcb) = Ok false) ->
  snd (parse self) = Err (TypeError "'NoneType' object is not subscriptable").
Proof.
  intros H. apply parse_of_no_data. unfold _parse.
  destruct H as [[message Hfile] | (pcb & Hfile & Hbad)]; rewrite Hfile.
  - reflexivity.
  - destruct (validate_IPC2581 pcb) as [log answer]. cbn [snd] in Hbad.
    rewrite Hbad. reflexivity.
Qed.

(** ** Further statements about the layer drawings *)

Lemma for_each_ext {A S : Type} (xs : list A) (body body' : A -> S -> result S) :
  (forall x s, body x s = body' x s) ->
  forall s, for_each xs body s = for_each xs body' s.
Proof.
  intros Hext. induction xs as [ | x xs IH]; intros s; cbn [for_each];
    [ reflexivity | ].
  rewrite Hext. destruct (body' x s); cbn [bind]; [ apply IH | reflexivity ].
Qed.

(** A loop that appends what [f] gives for each item is [collect]. *)
Lemma for_each_collect {A B : Type} (xs : list A) (f : A -> result (list B))
    (acc : list B) :
  for_each xs (fun x acc => do ys <- f x; Ok (acc ++ ys)) acc
  = (do r <- collect xs f; Ok (acc ++ r)).
Proof.
  revert acc. induction xs as [ | x xs IH]; intros acc; cbn [for_each collect bind].
  - rewrite app_nil_r. reflexivity.
  - destruct (f x) as [ys | ]; cbn [bind]; [ | reflexivity ].
    rewrite IH. destruct (collect xs f); cbn [bind]; [ | reflexivity ].
    rewrite app_assoc. reflexivity.
Qed.

Lemma collect_app {A B : Type} (xs ys : list A) (f : A -> result (list B)) :
  collect (xs ++ ys) f
  = (do a <- collect xs f; do b <- collect ys f; Ok (a ++ b)).
Proof.
  induction xs as [ | x xs IH]; cbn [app collect bind].
  - destruct (collect ys f); reflexivity.
  - destruct (f x) as [zs | ]; cbn [bind]; [ | reflexivity ].
    rewrite IH. destruct (collect xs f); cbn [bind]; [ | reflexivity ].
    destruct (collect ys f); cbn [bind]; [ | reflexivity ].
    rewrite app_assoc. reflexivity.
Qed.

Lemma collect_Forall {A B : Type} (P : B -> Prop) (xs : list A)
    (f : A -> result (list B)) (r : list B) :
  (forall x ys, In x xs -> f x = Ok ys -> Forall P ys) ->
  collect xs f = Ok r -> Forall P r.
Proof.
  revert r. induction xs as [ | x xs IH]; intros r Hf Hrun; cbn [collect] in Hrun.
  - inversion Hrun. constructor.
  - destruct (f x) as [ys | ] eqn:E; cbn [bind] in Hrun; [ | discriminate ].
    destruct (collect xs f) as [rest | ] eqn:E'; cbn [bind] in Hrun;
      [ | discriminate ].
    inversion Hrun. apply Forall_app. split.
    + apply (Hf x ys (or_introl eq_refl) E).
    + apply IH; [ | reflexivity ]. intros y zs Hy. apply Hf. right. exact Hy.
Qed.

Lemma polyline_step_drawings (lines : gmap string string) (poly : node)
    (drawings : list drawing) :
  polyline_step lines poly drawings
  = (do ps <- polyline_drawings lines poly; Ok (drawings ++ ps)).
Proof.
  unfold polyline_step, polyline_drawings.
  destruct (first_item (getElementsByTagName poly "LineDescRef")) as [ref | ];
    cbn [bind]; [ | reflexivity ].
  destruct (lines !! getAttribute ref "id"); reflexivity.
Qed.

(** The two nested loops of the extraction are one pass over the polylines
    of the requested layer. *)
Lemma get_LayerDrawings_collect (pcb : document) (name : string)
    (lines : gmap string string) :
  get_LayerDrawings pcb (Some name) lines
  = collect (requested_polylines pcb name) (polyline_drawings lines).
Proof.
  unfold get_LayerDrawings, requested_polylines.
  assert (G : forall features acc,
             for_each features (feature_step name lines) acc
             = (do r <- collect
                          (flat_map
                             (fun feature =>
                                if String.eqb (getAttribute feature "layerRef") name
                                then getElementsByTagName feature "Polyline"
                                else [])
                             features)
                          (polyline_drawings lines);
                Ok (acc ++ r))).
  { induction features as [ | F features IH]; intros acc;
      cbn [for_each flat_map collect bind].
    - rewrite app_nil_r. reflexivity.
    - unfold feature_step at 1.
      destruct (String.eqb (getAttribute F "layerRef") name).
      + rewrite (for_each_ext _ _ _ (polyline_step_drawings lines)).
        rewrite for_each_collect, collect_app.
        destruct (collect (getElementsByTagName F "Polyline") _) as [r1 | ];
          cbn [bind]; [ | reflexivity ].
        rewrite IH. destruct (collect _ (polyline_drawings lines));
          cbn [bind]; [ | reflexivity ].
        rewrite app_assoc. reflexivity.
      + cbn [bind app]. apply IH. }
  rewrite G. destruct (collect _ (polyline_drawings lines)); reflexivity.
Qed.

(** X17: the extraction is one pass, in document order, over the polylines
    of the layer features that refer to the requested layer: it returns the
    drawings of these polylines appended in that order, or the exception of
    the first polyline that raises. *)
Theorem get_LayerDrawings_is_collect (pcb : document) (name : string)
    (lines : gmap string string) :
  get_LayerDrawings pcb (Some name) lines
  = collect (requested_polylines pcb name) (polyline_drawings lines).
Proof. apply get_LayerDrawings_collect. Qed.

(** X18: a layer name that no layer feature refers to gives the empty list:
    the table is not read, and the polylines of the other layers, dangling
    or not, play no part. *)
Theorem get_LayerDrawings_unreferenced_layer (pcb : document) (name : string)
    (lines : gmap string string) :
  Forall (fun feature => getAttribute feature "layerRef" <> name)
    (doc_getElementsByTagName pcb "LayerFeature") ->
  get_LayerDrawings pcb (Some name) lines = Ok [].
Proof.
  intros Hnone. rewrite get_LayerDrawings_collect. unfold requested_polylines.
  induction Hnone as [ | F features HF _ IH]; cbn [flat_map]; [ reflexivity | ].
  apply String.eqb_neq in HF. rewrite HF. exact IH.
Qed.

(** X19: a polyline of the requested layer with no [LineDescRef] below it
    makes the lookup of its style raise [IndexError], and the extraction
    ends in an exception. *)
Theorem get_LayerDrawings_unstyled_polyline
    (pcb : document) (layerName : string) (lines : gmap string string)
    (feature poly : node) :
  In feature (doc_getElementsByTagName pcb "LayerFeature") ->
  getAttribute feature "layerRef" = layerName ->
  In poly (getElementsByTagName feature "Polyline") ->
  getElementsByTagName poly "LineDescRef" = [] ->
  polyline_drawings lines poly = Err IndexError
  /\ exists ex, get_LayerDrawings pcb (Some layerName) lines = Err ex.
Proof.
  intros Hfeature Hlayer Hpoly Href.
  assert (Hone : polyline_drawings lines poly = Err IndexError)
    by (unfold polyline_drawings; rewrite Href; reflexivity).
  split; [ exact Hone | ]. apply is_ok_false. unfold get_LayerDrawings.
  apply (for_each_raises _ _ feature Hfeature). intros drawings.
  unfold feature_step. rewrite Hlayer, String.eqb_refl.
  apply (for_each_raises _ _ poly Hpoly). intros ds.
  rewrite polyline_step_drawings, Hone. reflexivity.
Qed.

(** X20: every drawing that the extraction returns carries, as its stroke
    width, a string of the line-width table (the text of a [lineWidth]
    attribute, not a number): under [wdith] for a segment, under [width] for
    an arc. *)
Theorem get_LayerDrawings_widths_are_table_strings
    (pcb : document) (name : string) (lines : gmap string string)
    (ds : list drawing) :
  get_LayerDrawings pcb (Some name) lines = Ok ds ->
  Forall (fun d => exists k s, lines !! k = Some s /\ emitted_with (VStr s) d)
    ds.
Proof.
  rewrite get_LayerDrawings_collect. apply collect_Forall.
  intros poly ys _. unfold polyline_drawings.
  destruct (first_item (getElementsByTagName poly "LineDescRef")) as [ref | ];
    cbn [bind]; [ | discriminate ].
  destruct (lines !! getAttribute ref "id") as [s' | ] eqn:E; [ | discriminate ].
  intros Hrun. apply process_PolyStep_emitted in Hrun.
  eapply Forall_impl; [ exact Hrun | ]. intros d Hd. eauto.
Qed.

(** ** Further statements about the extra field data *)

(** The inner loop over the items of one component adds the names to the
    set and overrides the fields of the entry. *)
Lemma map_fold_fields (fs : gset string) (rf m : gmap string string) :
  map_fold
    (fun k v (st : gset string * gmap string string) =>
       ({[k]} ∪ st.1, <[k := v]> st.2))
    (fs, rf) m
  = (dom m ∪ fs, m ∪ rf).
Proof.
  apply (map_fold_weak_ind
           (fun (r : gset string * gmap string string) (m : gmap string string) =>
              r = (dom m ∪ fs, m ∪ rf))).
  - rewrite dom_empty_L, (left_id_L ∅ (∪)), (left_id_L ∅ (∪)). reflexivity.
  - intros k v m' r _ ->. cbn [fst snd].
    rewrite dom_insert_L, insert_union_l, (assoc_L (∪)). reflexivity.
Qed.

Lemma field_step_merge (fs : gset string)
    (cd : gmap string (gmap string string)) (c : Component) :
  field_step (fs, cd) c
  = (dom (extra_fields c) ∪ fs,
     <[ref c := extra_fields c ∪ default ∅ (cd !! ref c)]> cd).
Proof. unfold field_step. rewrite map_fold_fields. reflexivity. Qed.

(** X21: the loop over the components collects, as field names, exactly the
    names that some component has among its extra fields, and gives every
    reference designator the fields of its components merged in order, a
    later component overriding an earlier one on a shared name; a
    designator of no component has no entry. *)
Theorem field_step_fold (cs : list Component) (fs : gset string)
    (cd : gmap string (gmap string string)) :
  fold_left field_step cs (∅, ∅) = (fs, cd) ->
  (forall k, k ∈ fs <-> exists c, In c cs /\ is_Some (extra_fields c !! k))
  /\ (forall r, cd !! r = merged_fields r cs).
Proof.
  assert (G : forall cs fs0 cd0 fs cd,
             fold_left field_step cs (fs0, cd0) = (fs, cd) ->
             (forall k, k ∈ fs
                        <-> k ∈ fs0
                            \/ exists c, In c cs /\ is_Some (extra_fields c !! k))
             /\ (forall r, cd !! r
                           = fold_left
                               (fun acc c =>
                                  if String.eqb (ref c) r
                                  then Some (extra_fields c ∪ default ∅ acc)
                                  else acc)
                               cs (cd0 !! r))).
  { clear. induction cs as [ | c cs IH]; intros fs0 cd0 fs cd Hrun;
      cbn [fold_left] in *.
    - inversion Hrun. subst. split; [ | reflexivity ].
      intros k. split; [ auto | ]. intros [H | (c & [] & _)]. exact H.
    - rewrite field_step_merge in Hrun. destruct (IH _ _ _ _ Hrun) as [Hfs Hcd].
      split.
      + intros k. rewrite Hfs, elem_of_union, elem_of_dom. split.
        * intros [[Hk | Hk] | (c' & Hin & Hk)].
          -- right. exists c. split; [ left; reflexivity | exact Hk ].
          -- left. exact Hk.
          -- right. exists c'. split; [ right; exact Hin | exact Hk ].
        * intros [Hk | (c' & [<- | Hin] & Hk)].
          -- left. right. exact Hk.
          -- left. left. exact Hk.
          -- right. exists c'. split; [ exact Hin | exact Hk ].
      + intros r. rewrite Hcd. f_equal.
        destruct (String.eqb_spec (ref c) r) as [-> | Hne].
        * apply lookup_insert_eq.
        * apply lookup_insert_ne. exact Hne. }
  intros Hrun. destruct (G _ _ _ _ _ Hrun) as [Hfs Hcd]. split.
  - intros k. rewrite Hfs. split; [ | auto ].
    intros [H | H]; [ | exact H ]. apply not_elem_of_empty in H. contradiction.
  - intros r. rewrite Hcd, lookup_empty. reflexivity.
Qed.

End Host.

(** ** The statements at the sample inputs

    Each lemma below applies one of the statements above to a sample input;
    where a host function plays no part in the hypotheses it is left
    arbitrary. *)

Section AtSamples.

Import PyFloat.

(** C4 fails as stated: the arc from (3,4) around (0,0) to (6,8) has a start
    spoke of radius 5 and an end spoke of radius 10, and the conversion
    returns radius 5, the start spoke's. *)
Lemma convert_PolyStepCurve_keeps_start_radius :
  spoke_radius (0 - 3) (0 - 4) = Ok 5%float
  /\ spoke_radius (0 - 6) (0 - 8) = Ok 10%float
  /\ 5%float <> 10%float
  /\ (forall atan : float -> float,
        exists a1 a2,
          convert_PolyStepCurve atan 3 4 0 0 6 8 "true" = Ok (5%float, a1, a2)).
Proof.
  split; [ reflexivity | ]. split; [ reflexivity | ]. split.
  - intros H. apply (f_equal (fun x => PrimFloat.eqb x 5)) in H.
    vm_compute in H. discriminate H.
  - intros atan. eexists. eexists. vm_compute. reflexivity.
Qed.

Lemma convert_PolyStepCurve_radius_of_start_spoke_sample :
  off_axis (0 - 3) (0 - 4) = true
  /\ off_axis (0 - 6) (0 - 8) = true
  /\ spoke_radius (0 - 3) (0 - 4) = Ok 5%float
  /\ (forall atan : float -> float,
        exists a1 a2,
          convert_PolyStepCurve atan 3 4 0 0 6 8 "false" = Ok (5%float, a1, a2)).
Proof.
  split; [ reflexivity | ]. split; [ reflexivity | ]. split; [ reflexivity | ].
  intros atan.
  apply (convert_PolyStepCurve_radius_of_start_spoke atan 3 4 0 0 6 8 "false" 5);
    reflexivity.
Defined.

Lemma process_PolyStep_square_sample :
  SampleHost.float_of_digits "0" = Ok 0%float
  /\ SampleHost.float_of_digits "1" = Ok 1%float
  /\ (forall atan : float -> float,
        let w := VStr "0.1" in
        process_PolyStep atan SampleHost.float_of_digits Samples.square_path w
        = Ok [ segment_dict 0 0 1 0 w; segment_dict 1 0 1 1 w;
               segment_dict 1 1 0 1 w; segment_dict 0 1 0 0 w ]).
Proof.
  split; [ reflexivity | ]. split; [ reflexivity | ].
  intros atan w.
  exact (proj1 (process_PolyStep_square atan SampleHost.float_of_digits w
                  eq_refl eq_refl)).
Defined.

Lemma _parse_returns_no_data_on_revision_D :
  let self := Parser "board.xml" false in
  let read := fun _ : string => Ok Samples.revision_D_document in
  read (file_name self) = Ok Samples.revision_D_document
  /\ firstChild Samples.revision_D_document
     = Some (Element "IPC-2581" [("revision", "D")] [])
  /\ str_gt "D" COMPATIBLE_IPC_REV = true
  /\ (forall atan py_float get_Shapes get_Footprints,
        snd (validate_IPC2581 Samples.revision_D_document) = Ok false
        /\ exists msg,
            _parse atan py_float get_Shapes get_Footprints read self
            = ([LogError msg], Ok (None, None))).
Proof.
  intros self read.
  split; [ reflexivity | ]. split; [ reflexivity | ]. split; [ reflexivity | ].
  intros atan py_float get_Shapes get_Footprints.
  apply (_parse_returns_no_data_on_failed_validation
           atan py_float get_Shapes get_Footprints read self
           Samples.revision_D_document "IPC-2581" [("revision", "D")] []);
    [ reflexivity | reflexivity | right; reflexivity ].
Defined.

Lemma get_LayerDrawings_dangling_line_style_sample :
  In Samples.dangling_feature
    (doc_getElementsByTagName Samples.dangling_document "LayerFeature")
  /\ In Samples.dangling_polyline
       (getElementsByTagName Samples.dangling_feature "Polyline")
  /\ Samples.one_line_style !! "L9" = None
  /\ (forall atan py_float,
        (forall drawings,
           polyline_step atan py_float Samples.one_line_style
             Samples.dangling_polyline drawings
           = Err (KeyError "L9"))
        /\ exists ex,
            get_LayerDrawings atan py_float Samples.dangling_document
              (Some "SILK_TOP") Samples.one_line_style
            = Err ex).
Proof.
  split; [ left; reflexivity | ]. split; [ left; reflexivity | ].
  split; [ reflexivity | ].
  intros atan py_float.
  apply (get_LayerDrawings_dangling_line_style atan py_float
           Samples.dangling_document "SILK_TOP" Samples.one_line_style
           Samples.dangling_feature Samples.dangling_polyline
           (Element "LineDescRef" [("id", "L9")] []) []);
    [ left; reflexivity | reflexivity | left; reflexivity | reflexivity
    | reflexivity ].
Defined.

(** At the sample the exception is the [KeyError] of the missing id. *)
Example get_LayerDrawings_dangling_document
    (atan : float -> float) (py_float : string -> result float) :
  get_LayerDrawings atan py_float Samples.dangling_document (Some "SILK_TOP")
    Samples.one_line_style
  = Err (KeyError "L9").
Proof. reflexivity. Qed.

Lemma get_LayerNames_single_top_conductor_sample :
  doc_getElementsByTagName Samples.one_layer_document "Layer"
  = [] ++ Samples.layer_L1 :: []
  /\ get_LayerNames Samples.one_layer_document
     = LayerRefs (Some "L1") None None None None None.
Proof.
  split; [ reflexivity | ].
  apply (get_LayerNames_single_top_conductor Samples.one_layer_document
           Samples.layer_L1 [] []);
    [ reflexivity | constructor | reflexivity | reflexivity | reflexivity ].
Defined.

(** A drill layer beside the copper layer changes nothing. *)
Example get_LayerNames_ignores_drill_layer :
  get_LayerNames
    (Document [ Samples.layer_drill; Samples.layer_L1; Samples.layer_drill ])
  = LayerRefs (Some "L1") None None None None None.
Proof. reflexivity. Qed.

(** The component of the specification's example: the value is the vendor
    VALUE, which the extra fields keep as well. *)
Example component_of_R1 :
  val (component_of Samples.component_R1) = "10k"
  /\ extra_fields (component_of Samples.component_R1) = {[ "VALUE" := "10k" ]}
  /\ ref (component_of Samples.component_R1) = "R1".
Proof. repeat split. Qed.

Lemma get_extra_field_data_other_file_sample :
  Samples.abspath_in_work "other.xml" <> Samples.abspath_in_work "board.xml"
  /\ (forall atan py_float get_Shapes get_Footprints minidom_parse,
        get_extra_field_data atan py_float get_Shapes get_Footprints
          minidom_parse Samples.abspath_in_work
          (Parser "board.xml" false) "other.xml"
        = ([], Ok None)).
Proof.
  assert (H : Samples.abspath_in_work "other.xml"
              <> Samples.abspath_in_work "board.xml") by discriminate.
  split; [ exact H | ].
  intros atan py_float get_Shapes get_Footprints minidom_parse.
  apply (proj2 (get_extra_field_data_none_iff_other_file
                  atan py_float get_Shapes get_Footprints minidom_parse
                  Samples.abspath_in_work (Parser "board.xml" false)
                  "other.xml")).
  exact H.
Defined.

(** The header of the sample document declares inches, and the resolver
    raises all the same. *)
Example set_outlineWidth_inch_document :
  map (fun header => getAttribute header "units")
    (doc_getElementsByTagName Samples.inch_document "CadHeader")
  = ["INCH"]
  /\ set_outlineWidth Samples.inch_document
     = Err (AttributeError "Document" "getElementByTagName").
Proof. split; reflexivity. Qed.

(** A document of another format is refused with the message of the first
    check. *)
Example _parse_foreign_document
    (atan : float -> float) (py_float : string -> result float)
    (get_Shapes : document -> result (gmap string value))
    (get_Footprints :
       document -> gmap string string -> gmap string value -> result value) :
  _parse atan py_float get_Shapes get_Footprints
    (fun _ => Ok Samples.foreign_document) (Parser "drawing.svg" true)
  = ([LogError "XML header does not specify IPC2581"], Ok (None, None)).
Proof. reflexivity. Qed.

(** The comparison of revisions is the comparison of strings: an absent
    revision and the letters up to C pass, later letters and lower-case
    letters do not. *)
Example str_gt_revisions :
  str_gt "" COMPATIBLE_IPC_REV = false
  /\ str_gt "B" COMPATIBLE_IPC_REV = false
  /\ str_gt "C" COMPATIBLE_IPC_REV = false
  /\ str_gt "D" COMPATIBLE_IPC_REV = true
  /\ str_gt "c" COMPATIBLE_IPC_REV = true.
Proof. repeat split. Qed.

End AtSamples.

(** ** The further statements at the sample inputs *)

Section AtMoreSamples.

Import PyFloat.

Lemma convert_PolyStepCurve_direction_swaps_angles_sample :
  "false" <> "true"
  /\ (forall (atan : float -> float) (r a b : float),
        convert_PolyStepCurve atan 3 4 0 0 6 8 "true" = Ok (r, a, b)
        <-> convert_PolyStepCurve atan 3 4 0 0 6 8 "false" = Ok (r, b, a)).
Proof.
  assert (H : "false" <> "true") by discriminate.
  split; [ exact H | ]. intros atan r a b.
  apply (convert_PolyStepCurve_direction_swaps_angles
           atan 3 4 0 0 6 8 "false" r a b H).
Defined.

Lemma process_PolyStep_length_sample :
  let w := VStr "0.1" in
  let ds := [ segment_dict 0 0 1 0 w; segment_dict 1 0 1 1 w;
              segment_dict 1 1 0 1 w; segment_dict 0 1 0 0 w ] in
  process_PolyStep (fun x => x) SampleHost.float_of_digits Samples.square_path w
  = Ok ds
  /\ length ds = length (List.filter emits (childNodes Samples.square_path)).
Proof.
  intros w ds.
  assert (H : process_PolyStep (fun x => x) SampleHost.float_of_digits
                Samples.square_path w = Ok ds) by reflexivity.
  split; [ exact H | ].
  exact (process_PolyStep_length (fun x => x) SampleHost.float_of_digits
           Samples.square_path w ds H).
Defined.

Lemma process_PolyStep_emitted_keys_sample :
  let w := VStr "0.1" in
  let ds := [ segment_dict 0 0 1 0 w; segment_dict 1 0 1 1 w;
              segment_dict 1 1 0 1 w; segment_dict 0 1 0 0 w ] in
  process_PolyStep (fun x => x) SampleHost.float_of_digits Samples.square_path w
  = Ok ds
  /\ Forall (emitted_with w) ds.
Proof.
  intros w ds.
  assert (H : process_PolyStep (fun x => x) SampleHost.float_of_digits
                Samples.square_path w = Ok ds) by reflexivity.
  split; [ exact H | ].
  exact (process_PolyStep_emitted_keys (fun x => x) SampleHost.float_of_digits
           Samples.square_path w ds H).
Defined.

Lemma process_PolyStep_segments_chained_sample :
  let w := VStr "0.1" in
  let ds := [ segment_dict 0 0 1 0 w; segment_dict 1 0 1 1 w;
              segment_dict 1 1 0 1 w; segment_dict 0 1 0 0 w ] in
  let before := [ Samples.step "PolyBegin" "0" "0" ] in
  let segments := [ Samples.step "PolyStepSegment" "1" "0";
                    Samples.step "PolyStepSegment" "1" "1";
                    Samples.step "PolyStepSegment" "0" "1";
                    Samples.step "PolyStepSegment" "0" "0" ] in
  childNodes Samples.square_path = before ++ segments
  /\ Forall (fun p => emits p = false) before
  /\ Forall (fun p => segment_or_skipped p = true) segments
  /\ process_PolyStep (fun x => x) SampleHost.float_of_digits
       Samples.square_path w = Ok ds
  /\ chained ds.
Proof.
  intros w ds before segments.
  assert (H1 : childNodes Samples.square_path = before ++ segments)
    by reflexivity.
  assert (H2 : Forall (fun p => emits p = false) before)
    by (repeat constructor).
  assert (H3 : Forall (fun p => segment_or_skipped p = true) segments)
    by (repeat constructor).
  assert (H4 : process_PolyStep (fun x => x) SampleHost.float_of_digits
                 Samples.square_path w = Ok ds) by reflexivity.
  repeat (split; [ assumption | ]).
  exact (process_PolyStep_segments_chained (fun x => x)
           SampleHost.float_of_digits Samples.square_path w before segments ds
           H1 H2 H3 H4).
Defined.

Lemma process_PolyStep_bad_coordinate_sample :
  In MoreSamples.broken_segment (childNodes MoreSamples.broken_path)
  /\ reads_point MoreSamples.broken_segment = true
  /\ is_ok (SampleHost.float_of_digits
              (getAttribute MoreSamples.broken_segment "x")) = false
  /\ (forall (atan : float -> float) (w : value),
        exists ex,
          process_PolyStep atan SampleHost.float_of_digits
            MoreSamples.broken_path w = Err ex).
Proof.
  assert (H1 : In MoreSamples.broken_segment
                 (childNodes MoreSamples.broken_path))
    by (right; right; left; reflexivity).
  split; [ exact H1 | ]. split; [ reflexivity | ]. split; [ reflexivity | ].
  intros atan w.
  apply (process_PolyStep_bad_coordinate atan SampleHost.float_of_digits
           MoreSamples.broken_path w MoreSamples.broken_segment H1 eq_refl).
  left. reflexivity.
Defined.

Lemma get_Line_Widths_lookup_sample :
  get_Line_Widths MoreSamples.styled_document = Ok {[ "L1" := "0.1" ]}
  /\ ({[ "L1" := "0.1" ]} : gmap string string) !! "L1"
     = last_entry_width "L1"
         (doc_getElementsByTagName MoreSamples.styled_document "EntryLineDesc").
Proof.
  assert (H : get_Line_Widths MoreSamples.styled_document
              = Ok {[ "L1" := "0.1" ]}) by reflexivity.
  split; [ exact H | ].
  exact (get_Line_Widths_lookup MoreSamples.styled_document _ "L1" H).
Defined.

(** An entry without a [LineDesc] makes the builder raise. *)
Example get_Line_Widths_bare_entry :
  get_Line_Widths
    (Document [ MoreSamples.styled_entry; MoreSamples.bare_entry ])
  = Err IndexError.
Proof. reflexivity. Qed.

(** A SILKSCREEN layer is not the silkscreen role, which is read from
    DOCUMENT; of two top copper layers the later one is kept. *)
Example get_LayerNames_roles :
  get_LayerNames
    (Document
       [ Element "Layer" [("name", "SILK"); ("layerFunction", "SILKSCREEN");
                          ("side", "TOP")] [];
         Element "Layer" [("name", "TOP"); ("layerFunction", "CONDUCTOR");
                          ("side", "TOP")] [];
         Element "Layer" [("name", "NOTES"); ("layerFunction", "DOCUMENT");
                          ("side", "TOP")] [];
         Element "Layer" [("name", "TOP_2"); ("layerFunction", "CONDUCTOR");
                          ("side", "TOP")] [] ])
  = LayerRefs (Some "TOP_2") None (Some "NOTES") None None None.
Proof. reflexivity. Qed.

Lemma _parse_raises_on_leading_comment :
  let self := Parser "board.xml" false in
  let read := fun _ : string => Ok MoreSamples.commented_document in
  read (file_name self) = Ok MoreSamples.commented_document
  /\ firstChild MoreSamples.commented_document = Some (NonElement 8)
  /\ (forall atan py_float get_Shapes get_Footprints,
        _parse atan py_float get_Shapes get_Footprints read self
        = ([], Err (AttributeError "Node" "tagName"))).
Proof.
  intros self read. split; [ reflexivity | ]. split; [ reflexivity | ].
  intros atan py_float get_Shapes get_Footprints.
  apply (_parse_raises_on_leading_non_element
           atan py_float get_Shapes get_Footprints read self
           MoreSamples.commented_document 8);
    reflexivity.
Defined.

Lemma _parse_returns_only_no_data_sample :
  let self := Parser "board.xml" false in
  let read := fun _ : string => Ok Samples.revision_D_document in
  read (file_name self) = Ok Samples.revision_D_document
  /\ (forall atan py_float get_Shapes get_Footprints,
        snd (_parse atan py_float get_Shapes get_Footprints read self)
        = Ok (None, None)
        /\ (@None pcbdata = None /\ @None (list Component) = None)).
Proof.
  intros self read. split; [ reflexivity | ].
  intros atan py_float get_Shapes get_Footprints.
  assert (H : snd (_parse atan py_float get_Shapes get_Footprints read self)
              = Ok (None, None)) by reflexivity.
  split; [ exact H | ].
  exact (_parse_returns_only_no_data
           atan py_float get_Shapes get_Footprints read self None None H).
Defined.

Lemma parse_raises_TypeError_on_revision_D :
  let self := Parser "board.xml" false in
  let read := fun _ : string => Ok Samples.revision_D_document in
  read (file_name self) = Ok Samples.revision_D_document
  /\ snd (validate_IPC2581 Samples.revision_D_document) = Ok false
  /\ (forall atan py_float get_Shapes get_Footprints
             (BoundingBox : Type) (new_BoundingBox : BoundingBox)
             add_drawing_bounding_box bbox_initialized bbox_to_dict,
        snd (parse atan py_float get_Shapes get_Footprints read
               BoundingBox new_BoundingBox add_drawing_bounding_box
               bbox_initialized bbox_to_dict self)
        = Err (TypeError "'NoneType' object is not subscriptable")).
Proof.
  intros self read. split; [ reflexivity | ]. split; [ reflexivity | ].
  intros atan py_float get_Shapes get_Footprints BoundingBox new_BoundingBox
    add_drawing_bounding_box bbox_initialized bbox_to_dict.
  apply (parse_raises_TypeError_without_data
           atan py_float get_Shapes get_Footprints read
           BoundingBox new_BoundingBox add_drawing_bounding_box
           bbox_initialized bbox_to_dict self).
  right. exists Samples.revision_D_document. split; reflexivity.
Defined.

Lemma get_LayerDrawings_unreferenced_layer_sample :
  Forall (fun feature => getAttribute feature "layerRef" <> "SILK_BOT")
    (doc_getElementsByTagName Samples.dangling_document "LayerFeature")
  /\ (forall atan py_float,
        get_LayerDrawings atan py_float Samples.dangling_document
          (Some "SILK_BOT") ∅
        = Ok []).
Proof.
  assert (H : Forall (fun feature => getAttribute feature "layerRef" <> "SILK_BOT")
                (doc_getElementsByTagName Samples.dangling_document
                   "LayerFeature"))
    by (repeat constructor; discriminate).
  split; [ exact H | ]. intros atan py_float.
  exact (get_LayerDrawings_unreferenced_layer atan py_float
           Samples.dangling_document "SILK_BOT" ∅ H).
Defined.

Lemma get_LayerDrawings_unstyled_polyline_sample :
  In MoreSamples.unstyled_feature
    (doc_getElementsByTagName MoreSamples.unstyled_document "LayerFeature")
  /\ In MoreSamples.unstyled_polyline
       (getElementsByTagName MoreSamples.unstyled_feature "Polyline")
  /\ getElementsByTagName MoreSamples.unstyled_polyline "LineDescRef" = []
  /\ (forall atan py_float,
        polyline_drawings atan py_float Samples.one_line_style
          MoreSamples.unstyled_polyline
        = Err IndexError
        /\ exists ex,
            get_LayerDrawings atan py_float MoreSamples.unstyled_document
              (Some "SILK_TOP") Samples.one_line_style
            = Err ex).
Proof.
  split; [ left; reflexivity | ]. split; [ left; reflexivity | ].
  split; [ reflexivity | ]. intros atan py_float.
  apply (get_LayerDrawings_unstyled_polyline atan py_float
           MoreSamples.unstyled_document "SILK_TOP" Samples.one_line_style
           MoreSamples.unstyled_feature MoreSamples.unstyled_polyline);
    [ left; reflexivity | reflexivity | left; reflexivity | reflexivity ].
Defined.

Lemma get_LayerDrawings_widths_are_table_strings_sample :
  let ds := [ segment_dict 0 0 1 0 (VStr "0.1") ] in
  get_LayerDrawings (fun x => x) SampleHost.float_of_digits
    MoreSamples.silkscreen_document (Some "SILK_TOP") Samples.one_line_style
  = Ok ds
  /\ Forall
       (fun d => exists k s,
          Samples.one_line_style !! k = Some s /\ emitted_with (VStr s) d)
       ds.
Proof.
  intros ds.
  assert (H : get_LayerDrawings (fun x => x) SampleHost.float_of_digits
                MoreSamples.silkscreen_document (Some "SILK_TOP")
                Samples.one_line_style = Ok ds) by reflexivity.
  split; [ exact H | ].
  exact (get_LayerDrawings_widths_are_table_strings (fun x => x)
           SampleHost.float_of_digits MoreSamples.silkscreen_document
           "SILK_TOP" Samples.one_line_style ds H).
Defined.

Lemma field_step_fold_sample :
  let cs := [ first_R1; second_R1 ] in
  let fs : gset string := {[ "VALUE"; "TOL"; "MFR" ]} in
  let cd : gmap string (gmap string string) :=
    {[ "R1" := {[ "VALUE" := "10k"; "TOL" := "1%"; "MFR" := "ACME" ]} ]} in
  fold_left field_step cs (∅, ∅) = (fs, cd)
  /\ (forall k, k ∈ fs <-> exists c, In c cs /\ is_Some (extra_fields c !! k))
  /\ (forall r, cd !! r = merged_fields r cs).
Proof.
  intros cs fs cd.
  assert (H : fold_left field_step cs (∅, ∅) = (fs, cd))
    by (vm_compute; reflexivity).
  split; [ exact H | ].
  exact (field_step_fold cs fs cd H).
Defined.

Lemma get_extra_field_data_same_file_raises_sample :
  Samples.abspath_in_work "board.xml" = Samples.abspath_in_work "/work/board.xml"
  /\ (forall atan py_float get_Shapes get_Footprints minidom_parse,
        is_ok (snd (get_extra_field_data atan py_float get_Shapes
                      get_Footprints minidom_parse Samples.abspath_in_work
                      (Parser "/work/board.xml" false) "board.xml"))
        = false).
Proof.
  split; [ reflexivity | ].
  intros atan py_float get_Shapes get_Footprints minidom_parse.
  apply (get_extra_field_data_same_file_raises
           atan py_float get_Shapes get_Footprints minidom_parse
           Samples.abspath_in_work (Parser "/work/board.xml" false)
           "board.xml").
  reflexivity.
Defined.

Lemma _parse_raises_on_commented_revision_D :
  let self := Parser "board.xml" false in
  let read := fun _ : string => Ok MoreSamples.commented_revision_D_document in
  read (file_name self) = Ok MoreSamples.commented_revision_D_document
  /\ firstChild MoreSamples.commented_revision_D_document = Some (NonElement 8)
  /\ documentElement MoreSamples.commented_revision_D_document
     = Some (Element "IPC-2581" [("revision", "D")] [])
  /\ str_gt "D" COMPATIBLE_IPC_REV = true
  /\ (forall atan py_float get_Shapes get_Footprints,
        _parse atan py_float get_Shapes get_Footprints read self
        = ([], Err (AttributeError "Node" "tagName"))
        /\ snd (_parse atan py_float get_Shapes get_Footprints read self)
           <> Ok (None, None)).
Proof.
  intros self read.
  split; [ reflexivity | ]. split; [ reflexivity | ]. split; [ reflexivity | ].
  split; [ reflexivity | ].
  intros atan py_float get_Shapes get_Footprints.
  apply (_parse_raises_on_failing_root_after_non_element
           atan py_float get_Shapes get_Footprints read self
           MoreSamples.commented_revision_D_document 8
           "IPC-2581" [("revision", "D")] []);
    [ reflexivity | reflexivity | reflexivity | right; reflexivity ].
Defined.

End AtMoreSamples.
